(** * julia-repl-mcp.py: the MCP adapter in front of the Julia REPL servers

    A shallow embedding of [src/julia-repl-mcp.py] and the properties its
    specification states about it.

    - Python values that travel as JSON are the inductive type [json];
      a [dict] is an association list in insertion order (the order [str]
      prints), keys pairwise distinct as in any Python dict, lookup taking
      the first binding.  JSON numbers are integers here: floats are outside
      the model.
    - Python [str] is [string]; code points above 127 are carried as their
      UTF-8 bytes.
    - Everything the adapter calls without defining it (the JSON codec,
      [os.path.abspath], the filesystem, the process table, the socket peer)
      is a field of the record [Platform].
    - Effects are explicit: a computation takes the trace of operating-system
      calls made so far and returns a value or a raised exception together
      with the extended trace. *)

From Stdlib Require Import ZArith List String Ascii Bool Lia.
From Stdlib Require Import DecimalString.
Import ListNotations.
Local Open Scope string_scope.
Local Open Scope Z_scope.

(** ** Characters and strings *)

Definition dquote : ascii := Ascii.ascii_of_nat 34.
Definition squote : ascii := Ascii.ascii_of_nat 39.
Definition backslash : ascii := Ascii.ascii_of_nat 92.
Definition slash : ascii := Ascii.ascii_of_nat 47.
Definition newline : ascii := Ascii.ascii_of_nat 10.

Definition str1 (c : ascii) : string := String c EmptyString.

(** [not s] for a string. *)
Definition str_empty (s : string) : bool :=
  match s with EmptyString => true | String _ _ => false end.

(** [needle in s] for two strings: the substring test. *)
Fixpoint str_contains (needle s : string) : bool :=
  String.prefix needle s
  || match s with
     | EmptyString => false
     | String _ s' => str_contains needle s'
     end.

(** [c in s] for a character. *)
Fixpoint str_has (c : ascii) (s : string) : bool :=
  match s with
  | EmptyString => false
  | String d s' => Ascii.eqb c d || str_has c s'
  end.

(** The ASCII characters for which [str.isspace] holds. *)
Definition is_space (c : ascii) : bool :=
  let n := nat_of_ascii c in
  (Nat.leb 9 n && Nat.leb n 13) || (Nat.leb 28 n && Nat.leb n 32).

Fixpoint lstrip (l : list ascii) : list ascii :=
  match l with
  | c :: r => if is_space c then lstrip r else l
  | [] => []
  end.

(** [s.strip()] *)
Definition strip (s : string) : string :=
  string_of_list_ascii
    (rev (lstrip (rev (lstrip (list_ascii_of_string s))))).

Definition hex_digit (n : nat) : ascii :=
  if Nat.ltb n 10 then ascii_of_nat (48 + n) else ascii_of_nat (87 + n).

Definition string_of_Z (z : Z) : string := NilZero.string_of_int (Z.to_int z).

(** ** JSON values as Python objects *)

#[local] Set Warnings "-register-all".

Inductive json : Type :=
| JNull
| JBool (b : bool)
| JNum (n : Z)
| JStr (s : string)
| JList (items : list json)
| JObj (fields : list (string * json)).

(** [type(v).__name__] *)
Definition type_name (v : json) : string :=
  match v with
  | JNull => "NoneType"
  | JBool _ => "bool"
  | JNum _ => "int"
  | JStr _ => "str"
  | JList _ => "list"
  | JObj _ => "dict"
  end.

(** The truth value Python gives an object in [if not v]. *)
Definition truthy (v : json) : bool :=
  match v with
  | JNull => false
  | JBool b => b
  | JNum n => negb (n =? 0)
  | JStr s => negb (str_empty s)
  | JList l => match l with [] => false | _ => true end
  | JObj kv => match kv with [] => false | _ => true end
  end.

(** [v == "lit"] for a string literal: only an equal string compares equal. *)
Definition eq_str (v : json) (lit : string) : bool :=
  match v with
  | JStr s => String.eqb s lit
  | _ => false
  end.

Fixpoint dict_get (k : string) (kv : list (string * json)) : option json :=
  match kv with
  | [] => None
  | (k', v) :: r => if String.eqb k k' then Some v else dict_get k r
  end.

Definition dict_has (k : string) (kv : list (string * json)) : bool :=
  match dict_get k kv with Some _ => true | None => false end.

Fixpoint dict_remove (k : string) (kv : list (string * json))
  : list (string * json) :=
  match kv with
  | [] => []
  | (k', v) :: r =>
      if String.eqb k k' then dict_remove k r else (k', v) :: dict_remove k r
  end.

(** *** [repr] and [str] *)

Definition repr_char (q : ascii) (c : ascii) : string :=
  let n := nat_of_ascii c in
  if Ascii.eqb c backslash then String backslash (str1 backslash)
  else if Ascii.eqb c q then String backslash (str1 q)
  else if Nat.eqb n 9 then String backslash "t"
  else if Nat.eqb n 10 then String backslash "n"
  else if Nat.eqb n 13 then String backslash "r"
  else if Nat.ltb n 32 || Nat.eqb n 127 then
    String backslash
      (String "x" (String (hex_digit (n / 16)) (str1 (hex_digit (n mod 16)))))
  else str1 c.

Fixpoint repr_chars (q : ascii) (s : string) : string :=
  match s with
  | EmptyString => EmptyString
  | String c r => repr_char q c ++ repr_chars q r
  end.

(** [repr(s)]: single quotes, unless the text has a single quote and no
    double quote. *)
Definition repr_str (s : string) : string :=
  let q := if str_has squote s && negb (str_has dquote s)
           then dquote else squote in
  String q (repr_chars q s ++ str1 q).

Fixpoint join_with (sep : string) (l : list string) : string :=
  match l with
  | [] => EmptyString
  | [x] => x
  | x :: r => x ++ sep ++ join_with sep r
  end.

Fixpoint py_repr (v : json) : string :=
  match v with
  | JNull => "None"
  | JBool true => "True"
  | JBool false => "False"
  | JNum n => string_of_Z n
  | JStr s => repr_str s
  | JList l => "[" ++ join_with ", " (map py_repr l) ++ "]"
  | JObj kv =>
      "{" ++ join_with ", "
               (map (fun p => match p with
                              | (k, x) => repr_str k ++ ": " ++ py_repr x
                              end) kv)
          ++ "}"
  end.

(** [str(v)], which is also what an f-string field prints. *)
Definition py_str (v : json) : string :=
  match v with
  | JStr s => s
  | _ => py_repr v
  end.

(** ** Exceptions *)

(** The exception classes that can arise in the adapter.  [Exception_] is
    the base class itself, raised by [send_to_julia_server]. *)
Inductive exn_class : Type :=
| Exception_
| TypeError
| KeyError
| AttributeError
| OverflowError
| ValueError
| JSONDecodeError
| OSError
| ConnectionError
| ProcessLookupError
| PermissionError
| FileNotFoundError
| IsADirectoryError.

(** An exception object: its class and the text [str(e)] prints. *)
Record exn : Type := Raised { exn_cls : exn_class; exn_text : string }.

(** [socket.error] is an alias of [OSError]. *)
Definition is_OSError (c : exn_class) : bool :=
  match c with
  | OSError | ConnectionError | ProcessLookupError | PermissionError
  | FileNotFoundError | IsADirectoryError => true
  | _ => false
  end.

(** [json.JSONDecodeError] derives from [ValueError]. *)
Definition is_ValueError (c : exn_class) : bool :=
  match c with
  | ValueError | JSONDecodeError => true
  | _ => false
  end.

Definition is_JSONDecodeError (c : exn_class) : bool :=
  match c with JSONDecodeError => true | _ => false end.

Definition is_ProcessLookupError (c : exn_class) : bool :=
  match c with ProcessLookupError => true | _ => false end.

Definition is_PermissionError (c : exn_class) : bool :=
  match c with PermissionError => true | _ => false end.

Definition is_FileNotFoundError (c : exn_class) : bool :=
  match c with FileNotFoundError => true | _ => false end.

(** Every class above derives from [Exception]. *)
Definition is_Exception (c : exn_class) : bool := true.

(** *** Operations on values that can raise *)

(** [lit in v] *)
Definition py_in (lit : string) (v : json) : exn + bool :=
  match v with
  | JObj kv => inr (dict_has lit kv)
  | JList l => inr (existsb (fun x => eq_str x lit) l)
  | JStr s => inr (str_contains lit s)
  | _ => inl (Raised TypeError
                ("argument of type '" ++ type_name v ++ "' is not iterable"))
  end.

(** [v[lit]] *)
Definition py_index (v : json) (lit : string) : exn + json :=
  match v with
  | JObj kv =>
      match dict_get lit kv with
      | Some x => inr x
      | None => inl (Raised KeyError (repr_str lit))
      end
  | JList _ =>
      inl (Raised TypeError "list indices must be integers or slices, not str")
  | JStr _ =>
      inl (Raised TypeError "string indices must be integers, not 'str'")
  | _ =>
      inl (Raised TypeError
             ("'" ++ type_name v ++ "' object is not subscriptable"))
  end.

(** [v.get(lit, default)] *)
Definition py_get (v : json) (lit : string) (default : json) : exn + json :=
  match v with
  | JObj kv =>
      match dict_get lit kv with
      | Some x => inr x
      | None => inr default
      end
  | _ =>
      inl (Raised AttributeError
             ("'" ++ type_name v ++ "' object has no attribute 'get'"))
  end.

(** [int(s)] for a string: surrounding whitespace, an optional sign, decimal
    digits with single underscores between them.  [None] is [ValueError]. *)
Definition digit_val (c : ascii) : option Z :=
  let n := nat_of_ascii c in
  if Nat.leb 48 n && Nat.leb n 57 then Some (Z.of_nat (n - 48)) else None.

Fixpoint digits_val (acc : Z) (after_digit : bool) (l : list ascii)
  : option Z :=
  match l with
  | [] => if after_digit then Some acc else None
  | c :: r =>
      match digit_val c with
      | Some d => digits_val (10 * acc + d) true r
      | None =>
          if Ascii.eqb c "_" && after_digit then digits_val acc false r
          else None
      end
  end.

Definition py_int (s : string) : option Z :=
  match list_ascii_of_string (strip s) with
  | c :: r =>
      if Ascii.eqb c "-" then option_map Z.opp (digits_val 0 false r)
      else if Ascii.eqb c "+" then digits_val 0 false r
      else digits_val 0 false (c :: r)
  | [] => None
  end.

(** ** The computation monad: a trace of operating-system calls *)

Inductive event : Type :=
| EvExists (path : string)            (* os.path.exists(path) *)
| EvRead (path : string)              (* open(path, 'r') ... f.read() *)
| EvKill (pid sig : Z)                (* os.kill(pid, sig) reached the OS *)
| EvSocket (fd : nat)                 (* socket.socket(AF_UNIX, SOCK_STREAM) *)
| EvConnect (fd : nat) (path : string)
| EvMakefile (fd : nat)
| EvSend (fd : nat) (data : string)   (* write + flush *)
| EvRecv (fd : nat)                   (* readline *)
| EvCloseFile (fd : nat)              (* sock_file.close() *)
| EvCloseSock (fd : nat)              (* sock.close() *)
| EvPrint (line : string).            (* print(line, flush=True) *)

Definition trace : Type := list event.

Definition M (A : Type) : Type := trace -> (exn + A) * trace.

Definition ret {A} (a : A) : M A := fun t => (inr a, t).

Definition raise {A} (e : exn) : M A := fun t => (inl e, t).

Definition bind {A B} (m : M A) (k : A -> M B) : M B :=
  fun t =>
    match m t with
    | (inr a, t') => k a t'
    | (inl e, t') => (inl e, t')
    end.

Definition emit (e : event) : M unit := fun t => (inr tt, (t ++ [e])%list).

(** A pure operation that may raise. *)
Definition lift {A} (r : exn + A) : M A :=
  match r with
  | inr a => ret a
  | inl e => raise e
  end.

(** [try: m  except C as e: h e], where [catches] says which classes [C]
    covers. *)
Definition try_except {A} (m : M A) (catches : exn_class -> bool)
  (h : exn -> M A) : M A :=
  fun t =>
    match m t with
    | (inl e, t') => if catches (exn_cls e) then h e t' else (inl e, t')
    | (inr a, t') => (inr a, t')
    end.

Declare Scope py_scope.
Delimit Scope py_scope with py.
Notation "x <- m ;; k" := (bind m (fun x => k))
  (at level 61, m at next level, right associativity) : py_scope.
Notation "m ;; k" := (bind m (fun _ => k))
  (at level 61, right associativity) : py_scope.
Local Open Scope py_scope.

(** *** Sockets in a trace *)

Definition is_socket_ev (e : event) : bool :=
  match e with EvSocket _ => true | _ => false end.

(** The descriptor the next [socket.socket] call gets. *)
Definition fresh_fd (t : trace) : nat := List.length (filter is_socket_ev t).

Definition opened (t : trace) : list nat :=
  flat_map (fun e => match e with EvSocket fd => [fd] | _ => [] end) t.

Definition closes (fd : nat) (e : event) : bool :=
  match e with EvCloseSock fd' => Nat.eqb fd fd' | _ => false end.

(** The sockets created in [t] on which [close] was never called. *)
Definition open_sockets (t : trace) : list nat :=
  filter (fun fd => negb (existsb (closes fd) t)) (opened t).

(** ** JSON-RPC envelopes *)

Definition create_error_response (request_id : json) (code : Z)
  (message : string) : json :=
  JObj [("jsonrpc", JStr "2.0");
        ("id", request_id);
        ("error", JObj [("code", JNum code); ("message", JStr message)])].

Definition create_success_response (request_id : json) (result : json)
  : json :=
  JObj [("jsonrpc", JStr "2.0"); ("id", request_id); ("result", result)].

(** ** What the adapter runs on *)

(** The outcome of the system call [kill(pid, 0)]. *)
Inductive probe_result : Type :=
| Alive               (* the call succeeds *)
| NoSuchProcess       (* ESRCH *)
| NotPermitted.       (* EPERM *)

(** The code the adapter calls and does not define, and the state of the
    machine during one request.
    - [json_loads] is [json.loads] after [bytes.decode], [json_dumps] is
      [json.dumps];
    - [abspath] is [os.path.abspath], which reads the working directory;
    - [path_exists] is [os.path.exists]; [read_text] is opening a file for
      reading and reading all of it, with the exception it can raise;
    - [probe] is the process table as [kill(pid, 0)] sees it;
    - [connect] answers a connection to a socket path: [None] when it is
      accepted, otherwise the text of the [OSError];
    - [peer] is the line the server at a socket path sends back for a request
      line, the empty string when it closes the connection instead. *)
Record Platform : Type := {
  json_loads : string -> exn + json;
  json_dumps : json -> string;
  abspath : string -> string;
  path_exists : string -> bool;
  read_text : string -> exn + string;
  probe : Z -> probe_result;
  connect : string -> option string;
  peer : string -> string -> string
}.

(** ** [os.path] on POSIX *)

Definition is_slash (c : ascii) : bool := Ascii.eqb c slash.

Fixpoint drop_while (p : ascii -> bool) (l : list ascii) : list ascii :=
  match l with
  | c :: r => if p c then drop_while p r else l
  | [] => []
  end.

(** [posixpath.dirname]: the text up to and including the last slash, its
    trailing slashes stripped unless it consists of slashes only.  The
    computation runs on the reversed text. *)
Definition dirname_rev (r : list ascii) : list ascii :=
  let head := drop_while (fun c => negb (is_slash c)) r in
  if forallb is_slash head then head else drop_while is_slash head.

Definition dirname (p : string) : string :=
  string_of_list_ascii (rev (dirname_rev (rev (list_ascii_of_string p)))).

Definition starts_with_slash (s : string) : bool :=
  match s with String c _ => is_slash c | EmptyString => false end.

Definition ends_with_slash (s : string) : bool :=
  match rev (list_ascii_of_string s) with
  | c :: _ => is_slash c
  | [] => false
  end.

(** [os.path.join(a, b)] *)
Definition path_join (a b : string) : string :=
  if starts_with_slash b then b
  else if str_empty a || ends_with_slash a then a ++ b
  else a ++ str1 slash ++ b.

(** [os.fspath] on a value received as JSON: only a [str] is a path. *)
Definition fspath (v : json) : exn + string :=
  match v with
  | JStr s => inr s
  | _ => inl (Raised TypeError
                ("expected str, bytes or os.PathLike object, not "
                 ++ type_name v))
  end.

Definition SOCKET_NAME : string := ".mcp-repl.sock".
Definition PID_NAME : string := ".mcp-repl.pid".

(** The result of the upward walk after a bounded number of iterations. *)
Inductive walk : Type :=
| Found (socket_path : string)
| NotFound
| OutOfFuel.

(** An entry of the tool registry. *)
Record tool : Type := {
  name : string;
  description : string;
  inputSchema : json;
  handler : json -> M json
}.

Section Adapter.

Variable pf : Platform.

(** ** Backend locator *)

(** The [while True] loop of [find_socket_path], run for at most [fuel]
    iterations. *)
Fixpoint find_socket_loop (fuel : nat) (current : string) : M walk :=
  match fuel with
  | O => ret OutOfFuel
  | S fuel' =>
      let socket_path := path_join current SOCKET_NAME in
      emit (EvExists socket_path) ;;
      if path_exists pf socket_path then ret (Found socket_path)
      else
        let parent := dirname current in
        if String.eqb parent current then ret NotFound
        else find_socket_loop fuel' parent
  end.

(** [find_socket_path]: the loop is given one iteration more than the
    starting path has characters, which [find_socket_loop_enough_fuel] shows
    is never used up. *)
Definition find_socket_path (start_dir : string) : M (option string) :=
  let current := abspath pf start_dir in
  r <- find_socket_loop (S (String.length current)) current ;;
  ret (match r with
       | Found socket_path => Some socket_path
       | NotFound | OutOfFuel => None
       end).

(** [os.kill(pid, sig)].  The interpreter converts [pid] to the C type
    [pid_t], a 32-bit [int] on Linux and macOS, and raises [OverflowError]
    before any system call when it does not fit; the wording of the text
    varies between releases of the interpreter. *)
Definition os_kill (pid sig : Z) : M unit :=
  if pid <? - 2 ^ 31 then
    raise (Raised OverflowError "signed integer is less than minimum")
  else if 2 ^ 31 <=? pid then
    raise (Raised OverflowError "signed integer is greater than maximum")
  else
    emit (EvKill pid sig) ;;
    match probe pf pid with
    | Alive => ret tt
    | NoSuchProcess =>
        raise (Raised ProcessLookupError "[Errno 3] No such process")
    | NotPermitted =>
        raise (Raised PermissionError "[Errno 1] Operation not permitted")
    end.

Definition check_server_running (socket_path : string) : M bool :=
  let pid_path := path_join (dirname socket_path) PID_NAME in
  emit (EvExists pid_path) ;;
  if negb (path_exists pf pid_path) then ret false
  else
    try_except
      (emit (EvRead pid_path) ;;
       text <- lift (read_text pf pid_path) ;;
       pid <- match py_int (strip text) with
              | Some n => ret n
              | None =>
                  raise (Raised ValueError
                           ("invalid literal for int() with base 10: "
                            ++ repr_str (strip text)))
              end ;;
       os_kill pid 0 ;;
       ret true)
      (fun c => is_ValueError c || is_ProcessLookupError c
                || is_PermissionError c || is_FileNotFoundError c)
      (fun _ => ret false).

(** ** Transport client *)

Definition new_socket : M nat :=
  fun t => (inr (fresh_fd t), (t ++ [EvSocket (fresh_fd t)])%list).

Definition sock_connect (fd : nat) (socket_path : string) : M unit :=
  emit (EvConnect fd socket_path) ;;
  match connect pf socket_path with
  | None => ret tt
  | Some text => raise (Raised OSError text)
  end.

Definition send_to_julia_server (socket_path : string) (request : json)
  : M json :=
  try_except
    (sock <- new_socket ;;
     sock_connect sock socket_path ;;
     emit (EvMakefile sock) ;;
     let data := json_dumps pf request ++ str1 newline in
     emit (EvSend sock data) ;;
     emit (EvRecv sock) ;;
     let response_line := peer pf socket_path data in
     (if str_empty response_line
      then raise (Raised ConnectionError "Server closed connection")
      else ret tt) ;;
     response <- lift (json_loads pf response_line) ;;
     emit (EvCloseFile sock) ;;
     emit (EvCloseSock sock) ;;
     ret response)
    is_OSError
    (fun e =>
       raise (Raised Exception_
                ("Socket error: " ++ exn_text e
                 ++ ". Is the Julia MCP server running?"))).

(** ** Tool handlers *)

Definition start_hint : string :=
  "Start the server with:" ++ str1 newline
  ++ "  julia --project -e 'using MCPRepl; MCPRepl.start!()'".

(** The request sent to the backend, always with the constant id 1. *)
Definition julia_request (tool_name : string) (arguments : json) : json :=
  JObj [("jsonrpc", JStr "2.0");
        ("id", JNum 1);
        ("method", JStr "tools/call");
        ("params", JObj [("name", JStr tool_name);
                         ("arguments", arguments)])].

(** [str(response.get("result", ""))], the last statement of the [try]
    block. *)
Definition stringify_result (response : json) : M json :=
  result <- lift (py_get response "result" (JStr EmptyString)) ;;
  ret (JStr (py_str result)).

(** The body of the [try] block after the response has arrived. *)
Definition unwrap_response (response : json) : M json :=
  has_error <- lift (py_in "error" response) ;;
  if has_error : bool then
    err <- lift (py_index response "error") ;;
    message <- lift (py_index err "message") ;;
    ret (JStr ("Error from Julia server: " ++ py_str message))
  else
    has_result <- lift (py_in "result" response) ;;
    has_content <-
      (if has_result : bool then
         result <- lift (py_index response "result") ;;
         lift (py_in "content" result)
       else ret false) ;;
    if has_content : bool then
      result <- lift (py_index response "result") ;;
      content <- lift (py_index result "content") ;;
      match content with
      | JList (first :: _) => lift (py_get first "text" (JStr EmptyString))
      | _ => stringify_result response
      end
    else stringify_result response.

(** The [try ... except Exception] statement that ends each of the three
    handlers (lines 152-163, 193-203 and 233-243, the same text). *)
Definition forward (socket_path : string) (request : json) : M json :=
  try_except
    (response <- send_to_julia_server socket_path request ;;
     unwrap_response response)
    is_Exception
    (fun e =>
       ret (JStr ("Error communicating with Julia server: " ++ exn_text e))).

Definition handle_exec_repl (args : json) : M json :=
  project_dir <- lift (py_get args "project_dir" (JStr EmptyString)) ;;
  expression <- lift (py_get args "expression" (JStr EmptyString)) ;;
  if negb (truthy project_dir) then
    ret (JStr "Error: project_dir parameter is required")
  else if negb (truthy expression) then
    ret (JStr "Error: expression parameter is required")
  else
    start_dir <- lift (fspath project_dir) ;;
    found <- find_socket_path start_dir ;;
    match found with
    | None =>
        ret (JStr ("Error: MCP REPL server not found in "
                   ++ py_str project_dir ++ ". " ++ start_hint))
    | Some socket_path =>
        running <- check_server_running socket_path ;;
        if negb running then
          ret (JStr ("Error: MCP REPL server not running "
                     ++ "(socket exists but process dead). " ++ start_hint))
        else
          forward socket_path
            (julia_request "exec_repl" (JObj [("expression", expression)]))
    end.

Definition handle_investigate_environment (args : json) : M json :=
  project_dir <- lift (py_get args "project_dir" (JStr EmptyString)) ;;
  if negb (truthy project_dir) then
    ret (JStr "Error: project_dir parameter is required")
  else
    start_dir <- lift (fspath project_dir) ;;
    found <- find_socket_path start_dir ;;
    match found with
    | None =>
        ret (JStr ("Error: MCP REPL server not found in "
                   ++ py_str project_dir))
    | Some socket_path =>
        running <- check_server_running socket_path ;;
        if negb running then ret (JStr "Error: MCP REPL server not running")
        else
          forward socket_path (julia_request "investigate_environment" (JObj []))
    end.

Definition handle_usage_instructions (args : json) : M json :=
  project_dir <- lift (py_get args "project_dir" (JStr EmptyString)) ;;
  if negb (truthy project_dir) then
    ret (JStr "Error: project_dir parameter is required")
  else
    start_dir <- lift (fspath project_dir) ;;
    found <- find_socket_path start_dir ;;
    match found with
    | None =>
        ret (JStr ("Error: MCP REPL server not found in "
                   ++ py_str project_dir))
    | Some socket_path =>
        running <- check_server_running socket_path ;;
        if negb running then ret (JStr "Error: MCP REPL server not running")
        else forward socket_path (julia_request "usage_instructions" (JObj []))
    end.

(** ** Tool registry *)

Definition project_dir_property (text : string) : string * json :=
  ("project_dir", JObj [("type", JStr "string"); ("description", JStr text)]).

Definition TOOLS : list tool :=
  [ {| name := "exec_repl";
       description :=
         "Execute Julia code in a shared, persistent REPL session.

**PREREQUISITE**: Before using this tool, you MUST first call the `usage_instructions` tool.

The tool returns raw text output containing: all printed content from stdout and stderr streams, plus the mime text/plain representation of the expression's return value (unless the expression ends with a semicolon).

You may use this REPL to execute julia code, run test sets, get function documentation, etc.";
       inputSchema :=
         JObj [("type", JStr "object");
               ("properties",
                JObj [project_dir_property
                        "Directory where the Julia project is located (used to find the REPL socket)";
                      ("expression",
                       JObj [("type", JStr "string");
                             ("description",
                              JStr "Julia expression to evaluate (e.g., '2 + 3 * 4' or `import Pkg; Pkg.status()`)")])]);
               ("required", JList [JStr "project_dir"; JStr "expression"])];
       handler := handle_exec_repl |};
    {| name := "investigate_environment";
       description :=
         "Investigate the current Julia environment including pwd, active project, packages, and development packages with their paths.

This tool provides comprehensive information about:
- Current working directory
- Active project and its details
- All packages in the environment with development status
- Development packages with their file system paths
- Current environment package status
- Revise.jl status for hot reloading";
       inputSchema :=
         JObj [("type", JStr "object");
               ("properties",
                JObj [project_dir_property
                        "Directory where the Julia project is located"]);
               ("required", JList [JStr "project_dir"])];
       handler := handle_investigate_environment |};
    {| name := "usage_instructions";
       description :=
         "Get detailed instructions for proper Julia REPL usage, best practices, and workflow guidelines.";
       inputSchema :=
         JObj [("type", JStr "object");
               ("properties",
                JObj [project_dir_property
                        "Directory where the Julia project is located"]);
               ("required", JList [JStr "project_dir"])];
       handler := handle_usage_instructions |} ].

(** ** MCP dispatcher *)

(** [next((t for t in TOOLS if t["name"] == tool_name), None)] *)
Definition find_tool (registry : list tool) (tool_name : json) : option tool :=
  find (fun t => eq_str tool_name (name t)) registry.

(** The [try ... except Exception] statement around the handler call. *)
Definition call_tool (t : tool) (request_id args : json) : M (option json) :=
  try_except
    (result_text <- handler t args ;;
     ret (Some (create_success_response request_id
                  (JObj [("content",
                          JList [JObj [("type", JStr "text");
                                       ("text", result_text)]])]))))
    is_Exception
    (fun e =>
       ret (Some (create_error_response request_id (-32603)
                    ("Tool execution error: " ++ exn_text e)))).

(** [process_mcp_request] reading its tools from [registry]. *)
Definition process_mcp_request_in (registry : list tool) (request : json)
  : M (option json) :=
  method <- lift (py_get request "method" JNull) ;;
  request_id <- lift (py_get request "id" JNull) ;;
  if eq_str method "initialize" then
    ret (Some (create_success_response request_id
                 (JObj [("protocolVersion", JStr "2024-11-05");
                        ("capabilities", JObj [("tools", JObj [])]);
                        ("serverInfo",
                         JObj [("name", JStr "julia-mcp-adapter");
                               ("version", JStr "1.0.0")])])))
  else if eq_str method "notifications/initialized" then ret None
  else if eq_str method "tools/list" then
    let tool_list :=
      map (fun t => JObj [("name", JStr (name t));
                          ("description", JStr (description t));
                          ("inputSchema", inputSchema t)]) registry in
    ret (Some (create_success_response request_id
                 (JObj [("tools", JList tool_list)])))
  else if eq_str method "tools/call" then
    params <- lift (py_get request "params" (JObj [])) ;;
    tool_name <- lift (py_get params "name" (JStr EmptyString)) ;;
    args <- lift (py_get params "arguments" (JObj [])) ;;
    match find_tool registry tool_name with
    | None =>
        ret (Some (create_error_response request_id (-32602)
                     ("Tool not found: " ++ py_str tool_name)))
    | Some t => call_tool t request_id args
    end
  else
    ret (Some (create_error_response request_id (-32601)
                 ("Method not found: " ++ py_str method))).

(** [process_mcp_request]: the dispatcher over the module's [TOOLS]. *)
Definition process_mcp_request (request : json) : M (option json) :=
  process_mcp_request_in TOOLS request.

(** ** Stdio front end *)

Definition print_json (v : json) : M unit := emit (EvPrint (json_dumps pf v)).

(** One iteration of the [for line in sys.stdin] loop.  The two [except]
    clauses are tried in order on an exception of the [try] body. *)
Definition stdio_line (raw : string) : M unit :=
  let line := strip raw in
  if str_empty line then ret tt
  else
    try_except
      (request <- lift (json_loads pf line) ;;
       response <- process_mcp_request request ;;
       match response with
       | Some r => print_json r
       | None => ret tt
       end)
      (fun c => is_JSONDecodeError c || is_Exception c)
      (fun e =>
         if is_JSONDecodeError (exn_cls e) then
           print_json (create_error_response JNull (-32700)
                         ("Parse error: " ++ exn_text e))
         else
           print_json (create_error_response JNull (-32603)
                         ("Internal error: " ++ exn_text e))).

Fixpoint run_stdio_mode (stdin : list string) : M unit :=
  match stdin with
  | [] => ret tt
  | line :: rest => stdio_line line ;; run_stdio_mode rest
  end.

End Adapter.

(** ** HTTP front end *)

(** What a request handler writes to its connection: the status, the headers
    the code sends itself, and the body. *)
Record http_response : Type := {
  status : Z;
  headers : list (string * string);
  body : string
}.

(** What a request handler reads of the incoming request: [self.path], the
    value of the [Content-Length] header when there is one, and what
    [self.rfile.read(n).decode('utf-8')] gives for a length [n]. *)
Record http_request : Type := {
  http_path : string;
  http_content_length : option string;
  http_read : Z -> exn + string
}.

Section HttpFrontEnd.

Variable pf : Platform.

Definition send_json_response (response : json) (code : Z) : http_response :=
  let response_body := json_dumps pf response in
  {| status := code;
     headers :=
       [("Content-Type", "application/json");
        ("Content-Length",
         string_of_Z (Z.of_nat (String.length response_body)));
        ("Access-Control-Allow-Origin", "*")];
     body := response_body |}.

Definition do_OPTIONS : http_response :=
  {| status := 200;
     headers :=
       [("Access-Control-Allow-Origin", "*");
        ("Access-Control-Allow-Methods", "POST, GET, OPTIONS");
        ("Access-Control-Allow-Headers", "Content-Type")];
     body := EmptyString |}.

Definition do_GET (req : http_request) : http_response :=
  if String.eqb (http_path req) "/health" then
    send_json_response (JObj [("status", JStr "ok")]) 200
  else
    send_json_response
      (create_error_response JNull (-32600) "Use POST for JSON-RPC requests")
      400.

(** [int(self.headers.get('Content-Length', 0))] *)
Definition read_content_length (req : http_request) : M Z :=
  match http_content_length req with
  | None => ret 0
  | Some s =>
      match py_int s with
      | Some n => ret n
      | None =>
          raise (Raised ValueError
                   ("invalid literal for int() with base 10: " ++ repr_str s))
      end
  end.

(** [do_POST]; the value is the response written, [None] when the handler
    writes nothing. *)
Definition do_POST (req : http_request) : M (option http_response) :=
  try_except
    (content_length <- read_content_length req ;;
     if content_length =? 0 then
       ret (Some (send_json_response
                    (create_error_response JNull (-32600) "Empty request body")
                    400))
     else
       body <- lift (http_read req content_length) ;;
       request <- lift (json_loads pf body) ;;
       response <- process_mcp_request pf request ;;
       match response with
       | Some r => ret (Some (send_json_response r 200))
       | None => ret None
       end)
    (fun c => is_JSONDecodeError c || is_Exception c)
    (fun e =>
       if is_JSONDecodeError (exn_cls e) then
         ret (Some (send_json_response
                      (create_error_response JNull (-32700)
                         ("Parse error: " ++ exn_text e))
                      400))
       else
         ret (Some (send_json_response
                      (create_error_response JNull (-32603)
                         ("Internal error: " ++ exn_text e))
                      500))).

End HttpFrontEnd.

(** ** A machine for the examples *)

(** [json.dumps] on values whose strings are ASCII. *)
Definition json_char (c : ascii) : string :=
  let n := nat_of_ascii c in
  if Ascii.eqb c dquote then String backslash (str1 dquote)
  else if Ascii.eqb c backslash then String backslash (str1 backslash)
  else if Nat.eqb n 10 then String backslash "n"
  else if Nat.eqb n 13 then String backslash "r"
  else if Nat.eqb n 9 then String backslash "t"
  else if Nat.eqb n 8 then String backslash "b"
  else if Nat.eqb n 12 then String backslash "f"
  else if Nat.ltb n 32 then
    String backslash
      ("u00" ++ String (hex_digit (n / 16)) (str1 (hex_digit (n mod 16))))
  else str1 c.

Fixpoint json_chars (s : string) : string :=
  match s with
  | EmptyString => EmptyString
  | String c r => json_char c ++ json_chars r
  end.

Definition json_quote (s : string) : string :=
  String dquote (json_chars s ++ str1 dquote).

Fixpoint json_text (v : json) : string :=
  match v with
  | JNull => "null"
  | JBool true => "true"
  | JBool false => "false"
  | JNum n => string_of_Z n
  | JStr s => json_quote s
  | JList l => "[" ++ join_with ", " (map json_text l) ++ "]"
  | JObj kv =>
      "{" ++ join_with ", "
               (map (fun p => match p with
                              | (k, x) => json_quote k ++ ": " ++ json_text x
                              end) kv)
          ++ "}"
  end.

Definition text_item (s : string) : json :=
  JObj [("type", JStr "text"); ("text", JStr s)].

(** The reply of the specification's round trip. *)
Definition reply_two : json :=
  JObj [("result", JObj [("content", JList [text_item "2"])])].

(** A reply whose first content item has no text. *)
Definition reply_no_text : json :=
  JObj [("result", JObj [("content", JList [JObj []])])].

(** A reply whose result has no content at all. *)
Definition reply_plain : json :=
  JObj [("result", JObj [("status", JStr "ok")])].

Definition notification : json :=
  JObj [("jsonrpc", JStr "2.0"); ("method", JStr "notifications/initialized")].

Definition call_nonexistent : json :=
  JObj [("jsonrpc", JStr "2.0"); ("id", JNum 7); ("method", JStr "tools/call");
        ("params", JObj [("name", JStr "nonexistent")])].

(** The texts the example decoder knows: each value above as [json_text]
    writes it, with or without the final newline. *)
Definition known_texts : list json :=
  [reply_two; reply_no_text; reply_plain; notification; call_nonexistent].

Definition demo_loads (s : string) : exn + json :=
  match find (fun v => String.eqb s (json_text v)
                       || String.eqb s (json_text v ++ str1 newline))
             known_texts with
  | Some v => inr v
  | None =>
      inl (Raised JSONDecodeError "Expecting value: line 1 column 1 (char 0)")
  end.

Definition one_of (l : list string) (s : string) : bool :=
  existsb (String.eqb s) l.

(** Every project directory below has a socket marker and a PID file; the
    PID file names the live process 4242, except in [/big], where it holds
    2^32.  [/a] (with subdirectories [/a/b/c]) answers the round trip of the
    specification, [/odd] answers with a content item without text, [/plain]
    answers with a result without content, nobody
    listens at [/down], the server at [/eof] closes at once and the one at
    [/junk] answers with something that is not JSON. *)
Definition demo : Platform := {|
  json_loads := demo_loads;
  json_dumps := json_text;
  abspath := fun p => p;
  path_exists :=
    one_of ["/a/.mcp-repl.sock"; "/a/.mcp-repl.pid";
            "/odd/.mcp-repl.sock"; "/odd/.mcp-repl.pid";
            "/plain/.mcp-repl.sock"; "/plain/.mcp-repl.pid";
            "/big/.mcp-repl.sock"; "/big/.mcp-repl.pid";
            "/down/.mcp-repl.sock"; "/down/.mcp-repl.pid";
            "/eof/.mcp-repl.sock"; "/eof/.mcp-repl.pid";
            "/junk/.mcp-repl.sock"; "/junk/.mcp-repl.pid"];
  read_text := fun p =>
    if one_of ["/a/.mcp-repl.pid"; "/odd/.mcp-repl.pid";
               "/plain/.mcp-repl.pid";
               "/down/.mcp-repl.pid"; "/eof/.mcp-repl.pid";
               "/junk/.mcp-repl.pid"] p
    then inr ("4242" ++ str1 newline)
    else if String.eqb p "/big/.mcp-repl.pid" then inr "4294967296"
    else inl (Raised FileNotFoundError
                ("[Errno 2] No such file or directory: " ++ repr_str p));
  probe := fun pid => if pid =? 4242 then Alive else NoSuchProcess;
  connect := fun p =>
    if String.eqb p "/down/.mcp-repl.sock"
    then Some "[Errno 111] Connection refused"
    else None;
  peer := fun p _ =>
    if String.eqb p "/a/.mcp-repl.sock"
    then json_text reply_two ++ str1 newline
    else if String.eqb p "/odd/.mcp-repl.sock"
    then json_text reply_no_text ++ str1 newline
    else if String.eqb p "/plain/.mcp-repl.sock"
    then json_text reply_plain ++ str1 newline
    else if String.eqb p "/junk/.mcp-repl.sock"
    then "not json" ++ str1 newline
    else EmptyString
|}.

(** The machine of the examples with every process gone. *)
Definition demo_dead : Platform := {|
  json_loads := json_loads demo;
  json_dumps := json_dumps demo;
  abspath := abspath demo;
  path_exists := path_exists demo;
  read_text := read_text demo;
  probe := fun _ => NoSuchProcess;
  connect := connect demo;
  peer := peer demo
|}.

(** A reply that reports a failure of the backend. *)
Definition reply_error : json :=
  JObj [("jsonrpc", JStr "2.0");
        ("id", JNum 1);
        ("error", JObj [("code", JNum (-32000));
                        ("message", JStr "UndefVarError: x not defined")])].

(** The machine of the examples with every server answering
    [reply_error]. *)
Definition demo_failing : Platform := {|
  json_loads := fun s =>
    if String.eqb s (json_text reply_error ++ str1 newline)
    then inr reply_error
    else demo_loads s;
  json_dumps := json_dumps demo;
  abspath := abspath demo;
  path_exists := path_exists demo;
  read_text := read_text demo;
  probe := probe demo;
  connect := connect demo;
  peer := fun _ _ => json_text reply_error ++ str1 newline
|}.

(** The machine of the examples with every PID file reading as [r]. *)
Definition demo_reading (r : exn + string) : Platform := {|
  json_loads := json_loads demo;
  json_dumps := json_dumps demo;
  abspath := abspath demo;
  path_exists := path_exists demo;
  read_text := fun _ => r;
  probe := probe demo;
  connect := connect demo;
  peer := peer demo
|}.

(** ** The vocabulary of the statements *)

(** The [k]-th ancestor of a directory: [dirname] applied [k] times. *)
Fixpoint ancestor (k : nat) (d : string) : string :=
  match k with
  | O => d
  | S k' => ancestor k' (dirname d)
  end.

Definition marker_in (d : string) : string := path_join d SOCKET_NAME.

Definition slashes (l : list ascii) : nat := List.length (filter is_slash l).

(** The depth of a path: the number of separators in it. *)
Definition depth (p : string) : nat := slashes (list_ascii_of_string p).

(** The number of directories a walk from [current] can visit: one when
    [current] is its own parent, otherwise at most two more than it has
    separators. *)
Definition visit_bound (current : string) : nat :=
  if String.eqb (dirname current) current then 1 else depth current + 2.

(** The filesystem probes of a walk that visits [n] directories upward from
    [current]. *)
Definition probes (current : string) (n : nat) : trace :=
  map (fun j => EvExists (marker_in (ancestor j current))) (seq 0 n).

(** What a walk from [current] has to answer: the marker of the nearest
    ancestor that has one, or nothing when no ancestor has one, the
    ancestors ending in a directory that is its own parent. *)
Definition nearest_marker (pf : Platform) (current : string)
  (r : option string) : Prop :=
  match r with
  | Some socket_path =>
      exists k,
        socket_path = marker_in (ancestor k current)
        /\ path_exists pf socket_path = true
        /\ forall j, (j < k)%nat ->
                     path_exists pf (marker_in (ancestor j current)) = false
  | None =>
      (exists k, dirname (ancestor k current) = ancestor k current)
      /\ forall k, path_exists pf (marker_in (ancestor k current)) = false
  end.

(** [d.get(k, default)] on the fields of a dict. *)
Definition field (k : string) (default : json) (kv : list (string * json))
  : json :=
  match dict_get k kv with
  | Some v => v
  | None => default
  end.

(** The success envelope that carries a tool's text. *)
Definition tool_result (request_id text : json) : json :=
  create_success_response request_id
    (JObj [("content",
            JList [JObj [("type", JStr "text"); ("text", text)]])]).

(** A [tools/call] request. *)
Definition tools_call (request_id : json) (tool_name : string)
  (arguments : json) : json :=
  JObj [("jsonrpc", JStr "2.0");
        ("id", request_id);
        ("method", JStr "tools/call");
        ("params", JObj [("name", JStr tool_name);
                         ("arguments", arguments)])].

(** The handler's checks before forwarding pass: [project_dir] is a
    non-empty string, the walk from it finds [socket_path], and the liveness
    check at [socket_path] says the backend runs; [t2] is the trace at that
    point. *)
Definition backend_ready (pf : Platform) (args : list (string * json))
  (t : trace) (socket_path : string) (t2 : trace) : Prop :=
  exists pd t1,
    dict_get "project_dir" args = Some (JStr pd)
    /\ pd <> EmptyString
    /\ find_socket_path pf pd t = (inr (Some socket_path), t1)
    /\ check_server_running pf socket_path t1 = (inr true, t2).

(** The arguments a tool forwards to the backend: the expression for the
    execute operation, nothing for the other two. *)
Definition backend_arguments (tool_name : string)
  (args : list (string * json)) : json :=
  if String.eqb tool_name "exec_repl"
  then JObj [("expression", field "expression" (JStr EmptyString) args)]
  else JObj [].

(** The execute operation asks for an expression that Python counts as
    true. *)
Definition arguments_ok (tool_name : string) (args : list (string * json))
  : bool :=
  if String.eqb tool_name "exec_repl"
  then truthy (field "expression" (JStr EmptyString) args)
  else true.


(** The PID file that goes with a socket marker. *)
Definition pid_path_of (socket_path : string) : string :=
  path_join (dirname socket_path) PID_NAME.

(** The line [send_to_julia_server] writes for a request. *)
Definition request_line (pf : Platform) (request : json) : string :=
  json_dumps pf request ++ str1 newline.

(** The calls of [send_to_julia_server] on socket [fd] up to the point where
    the response line has been read. *)
Definition exchange (pf : Platform) (fd : nat) (socket_path : string)
  (request : json) : trace :=
  [EvSocket fd; EvConnect fd socket_path; EvMakefile fd;
   EvSend fd (request_line pf request); EvRecv fd].

Definition answer (w : walk) : option string :=
  match w with
  | Found socket_path => Some socket_path
  | NotFound | OutOfFuel => None
  end.



(** The envelope of code [code] that both front ends send for a fault of
    their own, with a null id. *)
Definition front_end_error (code : Z) (label : string) (e : exn) : json :=
  create_error_response JNull code (label ++ exn_text e).

(** The classes the [except] clause of [check_server_running] names. *)
Definition liveness_catches (c : exn_class) : bool :=
  is_ValueError c || is_ProcessLookupError c || is_PermissionError c
  || is_FileNotFoundError c.


(** The four methods the dispatcher knows. *)
Definition known_method (method : json) : bool :=
  eq_str method "initialize"
  || eq_str method "notifications/initialized"
  || eq_str method "tools/list"
  || eq_str method "tools/call".

Definition is_dict (v : json) : bool :=
  match v with JObj _ => true | _ => false end.

(** The exception of [v.get(...)] on a value that is not a dict. *)
Definition no_get (v : json) : exn :=
  Raised AttributeError
    ("'" ++ type_name v ++ "' object has no attribute 'get'").

(** What a handler says when the walk finds no marker; only the execute
    operation adds the hint on how to start the server. *)
Definition not_found_message (tool_name pd : string) : string :=
  if String.eqb tool_name "exec_repl"
  then "Error: MCP REPL server not found in " ++ pd ++ ". " ++ start_hint
  else "Error: MCP REPL server not found in " ++ pd.

(** What a handler says when the liveness check fails. *)
Definition not_running_message (tool_name : string) : string :=
  if String.eqb tool_name "exec_repl"
  then "Error: MCP REPL server not running (socket exists but process dead). "
       ++ start_hint
  else "Error: MCP REPL server not running".



(** A directory path without a trailing separator, unless it consists of
    separators only (the root); [os.path.abspath] and [os.path.dirname]
    return such paths. *)
Definition tidy (d : string) : bool :=
  negb (ends_with_slash d) || forallb is_slash (list_ascii_of_string d).

(** The three headers [send_json_response] sends for a body. *)
Definition json_headers (response_body : string) : list (string * string) :=
  [("Content-Type", "application/json");
   ("Content-Length", string_of_Z (Z.of_nat (String.length response_body)));
   ("Access-Control-Allow-Origin", "*")].

(** An HTTP request with a [Content-Length] header [s] and a body that reads
    as [text] whatever length is asked for. *)
Definition post_of (s text : string) : http_request :=
  {| http_path := "/";
     http_content_length := Some s;
     http_read := fun _ => inr text |}.

(** What [tools/list] shows of a registry entry. *)
Definition listing (tl : tool) : json :=
  JObj [("name", JStr (name tl));
        ("description", JStr (description tl));
        ("inputSchema", inputSchema tl)].

(** * Properties *)

(** ** Running a computation *)

Lemma run_bind {A B} (m : M A) (k : A -> M B) t a t' :
  m t = (inr a, t') -> bind m k t = k a t'.
Proof. unfold bind; intros ->; reflexivity. Qed.

Lemma run_bind_raise {A B} (m : M A) (k : A -> M B) t e t' :
  m t = (inl e, t') -> bind m k t = (inl e, t').
Proof. unfold bind; intros ->; reflexivity. Qed.

Lemma run_emit e (k : unit -> M unit) t :
  bind (emit e) k t = k tt (t ++ [e])%list.
Proof. reflexivity. Qed.

(** ** [dirname] shortens a path or leaves it as it is *)

Lemma length_string_of_list_ascii l :
  String.length (string_of_list_ascii l) = List.length l.
Proof. induction l; simpl; congruence. Qed.

Lemma length_list_ascii_of_string s :
  List.length (list_ascii_of_string s) = String.length s.
Proof. induction s; simpl; congruence. Qed.

Lemma drop_while_length p l :
  (List.length (drop_while p l) <= List.length l)%nat.
Proof.
  induction l as [|c r IH]; simpl; [lia|].
  destruct (p c); simpl; lia.
Qed.

Lemma drop_while_same p l :
  List.length (drop_while p l) = List.length l -> drop_while p l = l.
Proof.
  destruct l as [|c r]; simpl; [reflexivity|].
  destruct (p c); [|reflexivity].
  pose proof (drop_while_length p r); simpl; lia.
Qed.

Lemma dirname_rev_length r :
  (List.length (dirname_rev r) <= List.length r)%nat.
Proof.
  unfold dirname_rev.
  pose proof (drop_while_length (fun c => negb (is_slash c)) r) as H1.
  destruct (forallb _ _); [exact H1|].
  pose proof (drop_while_length is_slash
                (drop_while (fun c => negb (is_slash c)) r)); lia.
Qed.

Lemma dirname_rev_same r :
  List.length (dirname_rev r) = List.length r -> dirname_rev r = r.
Proof.
  unfold dirname_rev.
  pose proof (drop_while_length (fun c => negb (is_slash c)) r) as H1.
  destruct (forallb _ _).
  - apply drop_while_same.
  - intros H.
    pose proof (drop_while_length is_slash
                  (drop_while (fun c => negb (is_slash c)) r)) as H2.
    rewrite (drop_while_same is_slash) by lia.
    apply drop_while_same; lia.
Qed.

Lemma dirname_length p : (String.length (dirname p) <= String.length p)%nat.
Proof.
  unfold dirname.
  rewrite length_string_of_list_ascii, length_rev.
  pose proof (dirname_rev_length (rev (list_ascii_of_string p))) as H.
  rewrite length_rev, length_list_ascii_of_string in H; exact H.
Qed.

Lemma dirname_shorter p :
  dirname p <> p -> (String.length (dirname p) < String.length p)%nat.
Proof.
  intros Hne.
  pose proof (dirname_length p) as Hle.
  destruct (Nat.eq_dec (String.length (dirname p)) (String.length p)) as [E|];
    [|lia].
  exfalso; apply Hne.
  unfold dirname in *.
  rewrite length_string_of_list_ascii, length_rev in E.
  rewrite dirname_rev_same.
  - rewrite rev_involutive; apply string_of_list_ascii_of_string.
  - rewrite E, length_rev, length_list_ascii_of_string; reflexivity.
Qed.

(** *** [dirname] removes a separator or reaches a fixed point *)

Lemma slashes_drop_while p l : (slashes (drop_while p l) <= slashes l)%nat.
Proof.
  unfold slashes; induction l as [|c r IH]; simpl; [lia|].
  destruct (p c); [|simpl; lia].
  destruct (is_slash c); simpl; lia.
Qed.

Lemma drop_non_slash_head l :
  match drop_while (fun c => negb (is_slash c)) l with
  | [] => True
  | c :: _ => is_slash c = true
  end.
Proof.
  induction l as [|c r IH]; simpl; [exact I|].
  destruct (is_slash c) eqn:E; simpl; [exact E|exact IH].
Qed.

Lemma dirname_rev_of_slashes l :
  forallb is_slash l = true -> dirname_rev l = l.
Proof.
  intros H; unfold dirname_rev.
  assert (E : drop_while (fun c => negb (is_slash c)) l = l).
  { destruct l as [|c r]; [reflexivity|].
    simpl in *; apply andb_true_iff in H; destruct H as [-> _]; reflexivity. }
  rewrite E, H; reflexivity.
Qed.

(** One step up either lands on a path that is its own parent or loses a
    separator. *)
Lemma dirname_rev_progress r :
  dirname_rev (dirname_rev r) = dirname_rev r
  \/ (slashes (dirname_rev r) < slashes r)%nat.
Proof.
  unfold dirname_rev at 2 3 4.
  pose proof (drop_non_slash_head r) as Hhead.
  pose proof (slashes_drop_while (fun c => negb (is_slash c)) r) as Hle.
  destruct (forallb is_slash (drop_while _ r)) eqn:Hall.
  - left; apply dirname_rev_of_slashes, Hall.
  - right.
    destruct (drop_while (fun c => negb (is_slash c)) r) as [|c l];
      [discriminate|].
    simpl; rewrite Hhead.
    pose proof (slashes_drop_while is_slash l) as Hl.
    unfold slashes in *; simpl in Hle; rewrite Hhead in Hle; simpl in Hle.
    lia.
Qed.

Lemma depth_rev p : depth p = slashes (rev (list_ascii_of_string p)).
Proof.
  unfold depth, slashes; rewrite filter_rev, length_rev; reflexivity.
Qed.

Lemma dirname_progress p :
  dirname (dirname p) = dirname p \/ (depth (dirname p) < depth p)%nat.
Proof.
  destruct (dirname_rev_progress (rev (list_ascii_of_string p))) as [H|H].
  - left; unfold dirname at 1 2.
    rewrite list_ascii_of_string_of_list_ascii, rev_involutive, H.
    reflexivity.
  - right; rewrite !depth_rev; unfold dirname.
    rewrite list_ascii_of_string_of_list_ascii, rev_involutive; exact H.
Qed.

(** ** The upward walk *)

Section Locator.

Variable pf : Platform.

Lemma ancestor_fixed d : dirname d = d -> forall k, ancestor k d = d.
Proof.
  intros H k; induction k as [|k IH]; simpl; [reflexivity|].
  rewrite H; exact IH.
Qed.

Lemma probes_step current n :
  probes current (S n) = EvExists (marker_in current) :: probes (dirname current) n.
Proof.
  unfold probes; simpl; f_equal.
  rewrite <- seq_shift, map_map; reflexivity.
Qed.

(** With more iterations than the path has characters the loop ends by
    itself, having visited the ancestors in order, no more of them than the
    depth of the path allows, and its answer is the nearest marker. *)
Lemma find_socket_loop_enough_fuel fuel :
  forall current t,
    (String.length current < fuel)%nat ->
    exists w n,
      find_socket_loop pf fuel current t = (inr w, (t ++ probes current n)%list)
      /\ w <> OutOfFuel
      /\ (n <= visit_bound current)%nat
      /\ nearest_marker pf current (answer w).
Proof.
  induction fuel as [|fuel IH]; intros current t Hlen; [lia|].
  simpl find_socket_loop.
  rewrite run_bind
    with (a := tt) (t' := (t ++ [EvExists (marker_in current)])%list)
    by reflexivity.
  fold (marker_in current).
  assert (Hone : (1 <= visit_bound current)%nat).
  { unfold visit_bound; destruct (String.eqb _ _); lia. }
  destruct (path_exists pf (marker_in current)) eqn:Hex.
  - exists (Found (marker_in current)), 1%nat.
    repeat split; try discriminate; try lia.
    exists 0%nat; repeat split; trivial; intros; lia.
  - unfold visit_bound in *.
    destruct (String.eqb_spec (dirname current) current) as [Hfix|Hne].
    + exists NotFound, 1%nat.
      repeat split; try discriminate; try lia.
      * exists 0%nat; exact Hfix.
      * intros k; simpl; rewrite (ancestor_fixed _ Hfix); exact Hex.
    + pose proof (dirname_shorter _ Hne) as Hlt.
      destruct (IH (dirname current) (t ++ [EvExists (marker_in current)])%list)
        as (w & n & Hrun & Hw & Hn & Hspec); [lia|].
      exists w, (S n); rewrite Hrun, probes_step.
      repeat split; trivial.
      * rewrite <- app_assoc; reflexivity.
      * unfold visit_bound in Hn.
        destruct (String.eqb_spec (dirname (dirname current)) (dirname current))
          as [|Hmove]; [lia|].
        destruct (dirname_progress current); [congruence|lia].
      * destruct w as [sp| |]; simpl in *.
        -- destruct Hspec as (k & Hsp & Hthere & Hbelow).
           exists (S k); repeat split; trivial.
           intros [|j] Hj; simpl; [exact Hex|apply Hbelow; lia].
        -- destruct Hspec as [[k Hk] Hall]; split.
           ++ exists (S k); exact Hk.
           ++ intros [|j]; simpl; [exact Hex|apply Hall].
        -- congruence.
Qed.

Lemma find_socket_loop_fuel_irrelevant fuel :
  forall fuel' current t,
    (String.length current < fuel)%nat ->
    (String.length current < fuel')%nat ->
    find_socket_loop pf fuel current t = find_socket_loop pf fuel' current t.
Proof.
  induction fuel as [|fuel IH]; intros [|fuel'] current t H H'; try lia.
  simpl.
  rewrite !run_bind
    with (a := tt) (t' := (t ++ [EvExists (marker_in current)])%list)
    by reflexivity.
  destruct (path_exists pf _); [reflexivity|].
  destruct (String.eqb_spec (dirname current) current) as [|Hne];
    [reflexivity|].
  pose proof (dirname_shorter _ Hne).
  apply IH; lia.
Qed.

End Locator.

(** C5: [find_socket_path] returns for every [start_dir] and every
    filesystem.  It probes the absolute form of [start_dir], then its parent,
    and so on, at most two directories more than that path has separators;
    it returns the marker path of the nearest of these ancestors that has the
    marker and [None] when none has it, the walk having then reached a
    directory that is its own parent.  The loop, given any number of
    iterations above the length of the path, stops by itself at the same
    point with the same answer. *)
Theorem find_socket_path_nearest_ancestor :
  forall (pf : Platform) (start_dir : string) (t : trace),
  exists (r : option string) (n : nat),
    find_socket_path pf start_dir t
    = (inr r, (t ++ probes (abspath pf start_dir) n)%list)
    /\ (n <= depth (abspath pf start_dir) + 2)%nat
    /\ nearest_marker pf (abspath pf start_dir) r
    /\ forall fuel,
         (String.length (abspath pf start_dir) < fuel)%nat ->
         exists w,
           find_socket_loop pf fuel (abspath pf start_dir) t
           = (inr w, (t ++ probes (abspath pf start_dir) n)%list)
           /\ w <> OutOfFuel /\ answer w = r.
Proof.
  intros pf start_dir t.
  set (current := abspath pf start_dir).
  destruct (find_socket_loop_enough_fuel pf (S (String.length current))
              current t) as (w & n & Hrun & Hw & Hn & Hspec); [lia|].
  exists (answer w), n.
  split; [|split; [|split; [exact Hspec|]]].
  2: { unfold visit_bound in Hn; destruct (String.eqb _ _); lia. }
  - unfold find_socket_path; fold current.
    rewrite run_bind with (a := w) (t' := (t ++ probes current n)%list)
      by exact Hrun.
    destruct w; reflexivity.
  - intros fuel Hfuel; exists w.
    rewrite (find_socket_loop_fuel_irrelevant pf fuel
               (S (String.length current))) by lia.
    auto.
Qed.

(** ** Liveness check *)

Section Liveness.

Variable pf : Platform.

Lemma os_kill_in_range pid sig t :
  - 2 ^ 31 <= pid < 2 ^ 31 ->
  os_kill pf pid sig t
  = (match probe pf pid with
     | Alive => inr tt
     | NoSuchProcess =>
         inl (Raised ProcessLookupError "[Errno 3] No such process")
     | NotPermitted =>
         inl (Raised PermissionError "[Errno 1] Operation not permitted")
     end, (t ++ [EvKill pid sig])%list).
Proof.
  intros [Hlo Hhi]; unfold os_kill.
  destruct (Z.ltb_spec pid (- 2 ^ 31)) as [|_]; [lia|].
  destruct (Z.leb_spec (2 ^ 31) pid) as [|_]; [lia|].
  unfold bind, emit; destruct (probe pf pid); reflexivity.
Qed.

Lemma os_kill_too_large pid sig t :
  2 ^ 31 <= pid ->
  os_kill pf pid sig t
  = (inl (Raised OverflowError "signed integer is greater than maximum"), t).
Proof.
  intros Hhi; unfold os_kill.
  destruct (Z.ltb_spec pid (- 2 ^ 31)) as [|_]; [lia|].
  destruct (Z.leb_spec (2 ^ 31) pid) as [_|]; [reflexivity|lia].
Qed.



(** A PID that fits [pid_t] is probed, and the three outcomes of the probe
    give the three verdicts. *)
Lemma check_server_running_probed socket_path text pid t :
  path_exists pf (pid_path_of socket_path) = true ->
  read_text pf (pid_path_of socket_path) = inr text ->
  py_int (strip text) = Some pid ->
  - 2 ^ 31 <= pid < 2 ^ 31 ->
  check_server_running pf socket_path t
  = (inr (match probe pf pid with Alive => true | _ => false end),
     (t ++ [EvExists (pid_path_of socket_path);
            EvRead (pid_path_of socket_path); EvKill pid 0])%list).
Proof.
  intros H1 H2 H3 Hrange.
  unfold check_server_running; fold (pid_path_of socket_path).
  unfold bind, emit, try_except, lift; rewrite H1; simpl.
  rewrite H2; simpl; rewrite H3; simpl.
  rewrite os_kill_in_range by exact Hrange.
  rewrite <- !app_assoc; simpl.
  destruct (probe pf pid); reflexivity.
Qed.

(** A PID outside [pid_t] leaves [check_server_running] through an
    exception that its [except] clause does not list. *)
Lemma check_server_running_overflow socket_path text pid t :
  path_exists pf (pid_path_of socket_path) = true ->
  read_text pf (pid_path_of socket_path) = inr text ->
  py_int (strip text) = Some pid ->
  2 ^ 31 <= pid ->
  check_server_running pf socket_path t
  = (inl (Raised OverflowError "signed integer is greater than maximum"),
     (t ++ [EvExists (pid_path_of socket_path);
            EvRead (pid_path_of socket_path)])%list).
Proof.
  intros H1 H2 H3 Hhi.
  unfold check_server_running; fold (pid_path_of socket_path).
  unfold bind, emit, try_except, lift; rewrite H1; simpl.
  rewrite H2; simpl; rewrite H3; simpl.
  rewrite os_kill_too_large by exact Hhi.
  simpl; rewrite <- !app_assoc; reflexivity.
Qed.

End Liveness.

(** C4: the liveness check can raise.  In [/big] the PID file exists and
    holds the decimal number 2^32; [int] accepts it, [os.kill] refuses it with
    [OverflowError], which is none of the four classes the [except] clause
    names, and the exception leaves [check_server_running]. *)
Theorem check_server_running_raises_on_large_pid :
  path_exists demo (pid_path_of "/big/.mcp-repl.sock") = true
  /\ read_text demo (pid_path_of "/big/.mcp-repl.sock") = inr "4294967296"
  /\ py_int "4294967296" = Some (2 ^ 32)
  /\ exists e t,
       check_server_running demo "/big/.mcp-repl.sock" [] = (inl e, t)
       /\ exn_cls e = OverflowError.
Proof.
  split; [|split; [|split]]; try reflexivity.
  do 2 eexists; split; [vm_compute; reflexivity|reflexivity].
Qed.

(** ** Transport client *)

Section Transport.

Variable pf : Platform.

Lemma send_refused socket_path request text t :
  connect pf socket_path = Some text ->
  send_to_julia_server pf socket_path request t
  = (inl (Raised Exception_
            ("Socket error: " ++ text ++ ". Is the Julia MCP server running?")),
     (t ++ [EvSocket (fresh_fd t); EvConnect (fresh_fd t) socket_path])%list).
Proof.
  intros H.
  unfold send_to_julia_server, try_except, bind, new_socket, sock_connect,
    bind, emit.
  rewrite H; simpl; rewrite <- app_assoc; reflexivity.
Qed.

Lemma send_closed_early socket_path request t :
  connect pf socket_path = None ->
  peer pf socket_path (request_line pf request) = EmptyString ->
  send_to_julia_server pf socket_path request t
  = (inl (Raised Exception_
            "Socket error: Server closed connection. Is the Julia MCP server running?"),
     (t ++ exchange pf (fresh_fd t) socket_path request)%list).
Proof.
  intros H1 H2.
  unfold send_to_julia_server, try_except, bind, new_socket, sock_connect,
    bind, emit.
  fold (request_line pf request).
  rewrite H1, H2; simpl; rewrite <- !app_assoc; reflexivity.
Qed.

Lemma send_unparseable socket_path request e t :
  connect pf socket_path = None ->
  peer pf socket_path (request_line pf request) <> EmptyString ->
  json_loads pf (peer pf socket_path (request_line pf request)) = inl e ->
  is_OSError (exn_cls e) = false ->
  send_to_julia_server pf socket_path request t
  = (inl e, (t ++ exchange pf (fresh_fd t) socket_path request)%list).
Proof.
  intros H1 H2 H3 H4.
  unfold send_to_julia_server, try_except, bind, new_socket, sock_connect,
    bind, emit.
  fold (request_line pf request).
  rewrite H1; simpl.
  destruct (peer pf socket_path (request_line pf request)) as [|c l] eqn:Hl;
    [congruence|].
  simpl; rewrite H3; simpl; rewrite H4, <- !app_assoc; reflexivity.
Qed.

Lemma send_answered socket_path request response t :
  connect pf socket_path = None ->
  peer pf socket_path (request_line pf request) <> EmptyString ->
  json_loads pf (peer pf socket_path (request_line pf request)) = inr response ->
  send_to_julia_server pf socket_path request t
  = (inr response,
     (t ++ exchange pf (fresh_fd t) socket_path request
        ++ [EvCloseFile (fresh_fd t); EvCloseSock (fresh_fd t)])%list).
Proof.
  intros H1 H2 H3.
  unfold send_to_julia_server, try_except, bind, new_socket, sock_connect,
    bind, emit.
  fold (request_line pf request).
  rewrite H1; simpl.
  destruct (peer pf socket_path (request_line pf request)) as [|c l] eqn:Hl;
    [congruence|].
  simpl; rewrite H3; simpl; rewrite <- !app_assoc; reflexivity.
Qed.

End Transport.

(** C2: [send_to_julia_server] closes its socket only on the path that
    returns a response.  On the example machine the call that is answered
    ends with no socket open; the call that is refused, the call whose server
    closes before sending a line, and the call whose response line does not
    parse each end by raising with socket 0 still open: no [close] was called
    on it. *)
Theorem send_to_julia_server_leaves_socket_open :
  (exists t, send_to_julia_server demo "/a/.mcp-repl.sock" (JObj []) []
             = (inr reply_two, t)
             /\ open_sockets t = [])
  /\ (exists e t, send_to_julia_server demo "/down/.mcp-repl.sock" (JObj []) []
                  = (inl e, t)
                  /\ open_sockets t = [0%nat])
  /\ (exists e t, send_to_julia_server demo "/eof/.mcp-repl.sock" (JObj []) []
                  = (inl e, t)
                  /\ open_sockets t = [0%nat])
  /\ (exists e t, send_to_julia_server demo "/junk/.mcp-repl.sock" (JObj []) []
                  = (inl e, t)
                  /\ open_sockets t = [0%nat]).
Proof.
  split; [|split; [|split]].
  - eexists; split; [vm_compute; reflexivity|reflexivity].
  - do 2 eexists; split; [vm_compute; reflexivity|reflexivity].
  - do 2 eexists; split; [vm_compute; reflexivity|reflexivity].
  - do 2 eexists; split; [vm_compute; reflexivity|reflexivity].
Qed.

(** ** Dispatcher *)

Lemma py_get_obj kv k d : py_get (JObj kv) k d = inr (field k d kv).
Proof. unfold py_get, field; destruct (dict_get k kv); reflexivity. Qed.

Lemma run_get {B} kv k d (cont : json -> M B) t :
  bind (lift (py_get (JObj kv) k d)) cont t = cont (field k d kv) t.
Proof. rewrite py_get_obj; reflexivity. Qed.

Ltac run_get := rewrite run_get; cbv beta.

Lemma field_some k d kv v : dict_get k kv = Some v -> field k d kv = v.
Proof. unfold field; intros ->; reflexivity. Qed.

Lemma field_none k d kv : dict_get k kv = None -> field k d kv = d.
Proof. unfold field; intros ->; reflexivity. Qed.

(** The [tools/call] branch, once [params] is known to be a dict. *)
Lemma process_tools_call registry o p t :
  dict_get "method" o = Some (JStr "tools/call") ->
  field "params" (JObj []) o = JObj p ->
  process_mcp_request_in registry (JObj o) t
  = match find_tool registry (field "name" (JStr EmptyString) p) with
    | None =>
        (inr (Some (create_error_response (field "id" JNull o) (-32602)
                      ("Tool not found: "
                       ++ py_str (field "name" (JStr EmptyString) p)))), t)
    | Some tl =>
        call_tool tl (field "id" JNull o) (field "arguments" (JObj []) p) t
    end.
Proof.
  intros Hm Hp.
  unfold process_mcp_request_in.
  do 2 run_get.
  rewrite (field_some _ _ _ _ Hm); simpl (eq_str _ _); cbv iota.
  run_get; rewrite Hp; do 2 run_get.
  destruct (find_tool registry _); reflexivity.
Qed.

Lemma find_tool_none registry tool_name :
  (forall tl, In tl registry -> tool_name <> JStr (name tl)) ->
  find_tool registry tool_name = None.
Proof.
  intros H; unfold find_tool.
  destruct (find _ registry) as [tl|] eqn:E; [|reflexivity].
  apply find_some in E; destruct E as [Hin Heq].
  exfalso; apply (H tl Hin).
  destruct tool_name; simpl in Heq; try discriminate.
  apply String.eqb_eq in Heq; congruence.
Qed.

Lemma call_tool_returned tl request_id args text t t' :
  handler tl args t = (inr text, t') ->
  call_tool tl request_id args t = (inr (Some (tool_result request_id text)), t').
Proof.
  intros H; unfold call_tool, try_except, bind; rewrite H; reflexivity.
Qed.

(** C6: a [tools/call] request whose [params.name] equals the name of no
    registry entry is answered with the error envelope of code -32602 whose
    message is [Tool not found: ] followed by the name, and the trace of
    system calls is left as it was.  The registry is arbitrary here, handlers
    included, so the answer does not come from a handler;
    [process_mcp_request] is the instance at [TOOLS]. *)
Theorem unknown_tool_is_invalid_params :
  forall (registry : list tool) (o p : list (string * json)) (t : trace),
    dict_get "method" o = Some (JStr "tools/call") ->
    dict_get "params" o = Some (JObj p) ->
    (forall tl, In tl registry ->
                field "name" (JStr EmptyString) p <> JStr (name tl)) ->
    process_mcp_request_in registry (JObj o) t
    = (inr (Some (create_error_response (field "id" JNull o) (-32602)
                    ("Tool not found: "
                     ++ py_str (field "name" (JStr EmptyString) p)))), t).
Proof.
  intros registry o p t Hm Hp Hname.
  rewrite (process_tools_call registry o p t Hm (field_some _ _ _ _ Hp)).
  rewrite (find_tool_none _ _ Hname); reflexivity.
Qed.

Lemma unknown_tool_is_invalid_params_witness :
  process_mcp_request demo call_nonexistent []
  = (inr (Some (create_error_response (JNum 7) (-32602)
                  "Tool not found: nonexistent")), []).
Proof.
  apply (unknown_tool_is_invalid_params (TOOLS demo)
           [("jsonrpc", JStr "2.0"); ("id", JNum 7);
            ("method", JStr "tools/call");
            ("params", JObj [("name", JStr "nonexistent")])]
           [("name", JStr "nonexistent")] []).
  - reflexivity.
  - reflexivity.
  - intros tl [<-|[<-|[<-|[]]]]; simpl; discriminate.
Defined.

(** ** Argument validation in the handlers *)

Lemma dict_get_remove_same k kv : dict_get k (dict_remove k kv) = None.
Proof.
  induction kv as [|[k' v] r IH]; simpl; [reflexivity|].
  destruct (String.eqb k k') eqn:E; [exact IH|].
  simpl; rewrite E; exact IH.
Qed.

Lemma dict_get_remove_other k k' kv :
  k <> k' -> dict_get k' (dict_remove k kv) = dict_get k' kv.
Proof.
  intros Hne; induction kv as [|[k1 v] r IH]; simpl; [reflexivity|].
  destruct (String.eqb_spec k k1) as [<-|Hk1].
  - destruct (String.eqb_spec k' k) as [->|_]; [congruence|exact IH].
  - simpl; rewrite IH; reflexivity.
Qed.

Section Validation.

Variable pf : Platform.

Lemma exec_without_project_dir args t :
  truthy (field "project_dir" (JStr EmptyString) args) = false ->
  handle_exec_repl pf (JObj args) t
  = (inr (JStr "Error: project_dir parameter is required"), t).
Proof.
  intros H; unfold handle_exec_repl; do 2 run_get; rewrite H; reflexivity.
Qed.

Lemma exec_without_expression args t :
  truthy (field "project_dir" (JStr EmptyString) args) = true ->
  truthy (field "expression" (JStr EmptyString) args) = false ->
  handle_exec_repl pf (JObj args) t
  = (inr (JStr "Error: expression parameter is required"), t).
Proof.
  intros H1 H2; unfold handle_exec_repl; do 2 run_get.
  rewrite H1, H2; reflexivity.
Qed.

Lemma investigate_without_project_dir args t :
  truthy (field "project_dir" (JStr EmptyString) args) = false ->
  handle_investigate_environment pf (JObj args) t
  = (inr (JStr "Error: project_dir parameter is required"), t).
Proof.
  intros H; unfold handle_investigate_environment; run_get.
  rewrite H; reflexivity.
Qed.

Lemma usage_without_project_dir args t :
  truthy (field "project_dir" (JStr EmptyString) args) = false ->
  handle_usage_instructions pf (JObj args) t
  = (inr (JStr "Error: project_dir parameter is required"), t).
Proof.
  intros H; unfold handle_usage_instructions; run_get.
  rewrite H; reflexivity.
Qed.

(** Every handler of the registry refuses arguments without a usable
    [project_dir] before it makes any system call. *)
Lemma handler_without_project_dir tl args t :
  In tl (TOOLS pf) ->
  truthy (field "project_dir" (JStr EmptyString) args) = false ->
  handler tl (JObj args) t
  = (inr (JStr "Error: project_dir parameter is required"), t).
Proof.
  intros [<-|[<-|[<-|[]]]] H; simpl handler.
  - apply exec_without_project_dir, H.
  - apply investigate_without_project_dir, H.
  - apply usage_without_project_dir, H.
Qed.

End Validation.

(** C9: an empty-string [project_dir] gets from every handler of the
    registry the answer an absent one gets, [Error: project_dir parameter is
    required], with no system call made; and an empty-string [expression]
    beside a usable [project_dir] gets from the execute handler the answer of
    an absent one, [Error: expression parameter is required], again with no
    system call made. *)
Theorem empty_argument_is_absent_argument :
  forall (pf : Platform) (args : list (string * json)) (t : trace),
    (dict_get "project_dir" args = Some (JStr EmptyString) ->
     forall tl, In tl (TOOLS pf) ->
       handler tl (JObj args) t
       = (inr (JStr "Error: project_dir parameter is required"), t)
       /\ handler tl (JObj (dict_remove "project_dir" args)) t
          = handler tl (JObj args) t)
    /\ (dict_get "expression" args = Some (JStr EmptyString) ->
        truthy (field "project_dir" (JStr EmptyString) args) = true ->
        handle_exec_repl pf (JObj args) t
        = (inr (JStr "Error: expression parameter is required"), t)
        /\ handle_exec_repl pf (JObj (dict_remove "expression" args)) t
           = handle_exec_repl pf (JObj args) t).
Proof.
  intros pf args t; split.
  - intros Hpd tl Hin.
    assert (H1 : handler tl (JObj args) t
                 = (inr (JStr "Error: project_dir parameter is required"), t)).
    { apply (handler_without_project_dir pf); [exact Hin|].
      rewrite (field_some _ _ _ _ Hpd); reflexivity. }
    split; [exact H1|].
    rewrite H1; apply (handler_without_project_dir pf); [exact Hin|].
    rewrite field_none by apply dict_get_remove_same; reflexivity.
  - intros Hex Hpd.
    assert (H1 : handle_exec_repl pf (JObj args) t
                 = (inr (JStr "Error: expression parameter is required"), t)).
    { apply exec_without_expression; [exact Hpd|].
      rewrite (field_some _ _ _ _ Hex); reflexivity. }
    split; [exact H1|].
    rewrite H1; apply exec_without_expression.
    + unfold field; rewrite dict_get_remove_other by discriminate; exact Hpd.
    + rewrite field_none by apply dict_get_remove_same; reflexivity.
Qed.

Lemma empty_argument_is_absent_argument_witness :
  handle_investigate_environment demo
    (JObj [("project_dir", JStr EmptyString)]) []
  = (inr (JStr "Error: project_dir parameter is required"), [])
  /\ handle_exec_repl demo (JObj [("project_dir", JStr "/a");
                                  ("expression", JStr EmptyString)]) []
     = (inr (JStr "Error: expression parameter is required"), []).
Proof.
  split.
  - exact (proj1 (proj1 (empty_argument_is_absent_argument demo
                           [("project_dir", JStr EmptyString)] [])
                    eq_refl _ (or_intror (or_introl eq_refl)))).
  - exact (proj1 (proj2 (empty_argument_is_absent_argument demo
                           [("project_dir", JStr "/a");
                            ("expression", JStr EmptyString)] [])
                    eq_refl eq_refl)).
Defined.

(** ** Tool calls through the dispatcher *)

(** A case of C1 as it is stated that the code does not meet: the arguments
    carry [project_dir], as the empty string, and no [expression]; the text
    of the result is the complaint about [project_dir] and does not mention
    the expression. *)
Lemma missing_expression_counterexample :
  dict_has "project_dir" [("project_dir", JStr EmptyString)] = true
  /\ dict_has "expression" [("project_dir", JStr EmptyString)] = false
  /\ process_mcp_request demo
       (tools_call (JNum 1) "exec_repl"
          (JObj [("project_dir", JStr EmptyString)])) []
     = (inr (Some (tool_result (JNum 1)
                     (JStr "Error: project_dir parameter is required"))), [])
  /\ str_contains "expression parameter is required"
       "Error: project_dir parameter is required" = false.
Proof. repeat split. Qed.

(** C1, amended: when the arguments of an execute call have no [expression]
    and a [project_dir] that Python counts as true (a non-empty string, for
    one), the handler returns the text [Error: expression parameter is
    required] without a system call, and the dispatcher delivers it in a
    success envelope whose result is a content list of one text item. *)
Theorem missing_expression_is_a_tool_result :
  forall (pf : Platform) (o p args : list (string * json)) (pd : json)
         (t : trace),
    dict_get "method" o = Some (JStr "tools/call") ->
    dict_get "params" o = Some (JObj p) ->
    dict_get "name" p = Some (JStr "exec_repl") ->
    dict_get "arguments" p = Some (JObj args) ->
    dict_get "project_dir" args = Some pd ->
    truthy pd = true ->
    dict_get "expression" args = None ->
    handle_exec_repl pf (JObj args) t
    = (inr (JStr "Error: expression parameter is required"), t)
    /\ process_mcp_request pf (JObj o) t
       = (inr (Some (tool_result (field "id" JNull o)
                       (JStr "Error: expression parameter is required"))), t)
    /\ str_contains "expression parameter is required"
         "Error: expression parameter is required" = true.
Proof.
  intros pf o p args pd t Hm Hp Hn Ha Hpd Htrue Hex.
  assert (H : handle_exec_repl pf (JObj args) t
              = (inr (JStr "Error: expression parameter is required"), t)).
  { apply exec_without_expression.
    - rewrite (field_some _ _ _ _ Hpd); exact Htrue.
    - rewrite (field_none _ _ _ Hex); reflexivity. }
  split; [exact H|split; [|reflexivity]].
  unfold process_mcp_request.
  rewrite (process_tools_call _ o p t Hm (field_some _ _ _ _ Hp)).
  rewrite (field_some _ _ _ _ Hn), (field_some _ _ _ _ Ha).
  simpl (find_tool _ _).
  apply call_tool_returned; exact H.
Qed.

Lemma missing_expression_is_a_tool_result_witness :
  handle_exec_repl demo (JObj [("project_dir", JStr "/tmp")]) []
  = (inr (JStr "Error: expression parameter is required"), [])
  /\ process_mcp_request demo
       (tools_call (JNum 1) "exec_repl" (JObj [("project_dir", JStr "/tmp")]))
       []
     = (inr (Some (tool_result (JNum 1)
                     (JStr "Error: expression parameter is required"))), [])
  /\ str_contains "expression parameter is required"
       "Error: expression parameter is required" = true.
Proof.
  exact (missing_expression_is_a_tool_result demo
           [("jsonrpc", JStr "2.0"); ("id", JNum 1);
            ("method", JStr "tools/call");
            ("params", JObj [("name", JStr "exec_repl");
                             ("arguments",
                              JObj [("project_dir", JStr "/tmp")])])]
           [("name", JStr "exec_repl");
            ("arguments", JObj [("project_dir", JStr "/tmp")])]
           [("project_dir", JStr "/tmp")] (JStr "/tmp") []
           eq_refl eq_refl eq_refl eq_refl eq_refl eq_refl eq_refl).
Defined.

(** C10: a [tools/call] request without [params], or whose [params] has no
    [name], does not raise: it is answered with the error envelope of code
    -32602 and message [Tool not found: ] followed by the empty name; and
    when [params] names a tool and has no [arguments], the handler is called
    with the empty dict. *)
Theorem tools_call_defaults :
  forall (pf : Platform) (o : list (string * json)) (t : trace),
    dict_get "method" o = Some (JStr "tools/call") ->
    (dict_get "params" o = None ->
     process_mcp_request pf (JObj o) t
     = (inr (Some (create_error_response (field "id" JNull o) (-32602)
                     "Tool not found: ")), t))
    /\ (forall p,
          dict_get "params" o = Some (JObj p) ->
          dict_get "name" p = None ->
          process_mcp_request pf (JObj o) t
          = (inr (Some (create_error_response (field "id" JNull o) (-32602)
                          "Tool not found: ")), t))
    /\ (forall p tl,
          dict_get "params" o = Some (JObj p) ->
          find_tool (TOOLS pf) (field "name" (JStr EmptyString) p) = Some tl ->
          dict_get "arguments" p = None ->
          process_mcp_request pf (JObj o) t
          = call_tool tl (field "id" JNull o) (JObj []) t).
Proof.
  intros pf o t Hm; unfold process_mcp_request; repeat split.
  - intros Hp.
    rewrite (process_tools_call _ o [] t Hm (field_none _ _ _ Hp)).
    reflexivity.
  - intros p Hp Hn.
    rewrite (process_tools_call _ o p t Hm (field_some _ _ _ _ Hp)).
    rewrite (field_none _ _ _ Hn); reflexivity.
  - intros p tl Hp Hfind Ha.
    rewrite (process_tools_call _ o p t Hm (field_some _ _ _ _ Hp)).
    rewrite Hfind, (field_none _ _ _ Ha); reflexivity.
Qed.

Lemma tools_call_defaults_witness :
  process_mcp_request demo
    (JObj [("id", JNum 3); ("method", JStr "tools/call")]) []
  = (inr (Some (create_error_response (JNum 3) (-32602) "Tool not found: ")),
     [])
  /\ process_mcp_request demo
       (JObj [("method", JStr "tools/call"); ("params", JObj [])]) []
     = (inr (Some (create_error_response JNull (-32602) "Tool not found: ")),
        [])
  /\ process_mcp_request demo
       (JObj [("method", JStr "tools/call");
              ("params", JObj [("name", JStr "usage_instructions")])]) []
     = (inr (Some (tool_result JNull
                     (JStr "Error: project_dir parameter is required"))), []).
Proof.
  split; [|split].
  - exact (proj1 (tools_call_defaults demo
                    [("id", JNum 3); ("method", JStr "tools/call")] []
                    eq_refl) eq_refl).
  - exact (proj1 (proj2 (tools_call_defaults demo
                           [("method", JStr "tools/call");
                            ("params", JObj [])] [] eq_refl))
             [] eq_refl eq_refl).
  - exact (proj2 (proj2 (tools_call_defaults demo
                           [("method", JStr "tools/call");
                            ("params",
                             JObj [("name", JStr "usage_instructions")])] []
                           eq_refl))
             [("name", JStr "usage_instructions")] _
             eq_refl eq_refl eq_refl).
Defined.

(** ** The initialized notification *)

Lemma process_notification registry o t :
  dict_get "method" o = Some (JStr "notifications/initialized") ->
  process_mcp_request_in registry (JObj o) t = (inr None, t).
Proof.
  intros Hm; unfold process_mcp_request_in.
  do 2 run_get; rewrite (field_some _ _ _ _ Hm); reflexivity.
Qed.

Section Stdio.

Variable pf : Platform.

(** A line that carries the notification, or nothing but blanks, is read
    without anything being written. *)
Lemma stdio_line_notification raw o t :
  json_loads pf (strip raw) = inr (JObj o) ->
  dict_get "method" o = Some (JStr "notifications/initialized") ->
  stdio_line pf raw t = (inr tt, t).
Proof.
  intros Hl Hm; unfold stdio_line.
  destruct (str_empty (strip raw)); [reflexivity|].
  unfold try_except, bind, lift; rewrite Hl; simpl.
  unfold process_mcp_request; rewrite (process_notification _ o t Hm).
  reflexivity.
Qed.

Lemma run_stdio_mode_app pre post t :
  run_stdio_mode pf (pre ++ post)%list t
  = bind (run_stdio_mode pf pre) (fun _ => run_stdio_mode pf post) t.
Proof.
  revert t; induction pre as [|line pre IH]; intros t; simpl; [reflexivity|].
  unfold bind in *.
  destruct (stdio_line pf line t) as [[e|[]] t1]; [reflexivity|].
  apply IH.
Qed.

End Stdio.

(** C8: for a request whose method is [notifications/initialized] the
    dispatcher returns [None] and makes no system call, whatever the
    registry; the stdio loop, reading a line that decodes to such a request,
    prints nothing for it, so the whole run prints what it prints without
    that line. *)
Theorem initialized_notification_is_silent :
  forall (pf : Platform) (o : list (string * json)),
    dict_get "method" o = Some (JStr "notifications/initialized") ->
    (forall registry t,
       process_mcp_request_in registry (JObj o) t = (inr None, t))
    /\ (forall t, process_mcp_request pf (JObj o) t = (inr None, t))
    /\ (forall raw t,
          json_loads pf (strip raw) = inr (JObj o) ->
          stdio_line pf raw t = (inr tt, t))
    /\ (forall raw pre post t,
          json_loads pf (strip raw) = inr (JObj o) ->
          run_stdio_mode pf (pre ++ raw :: post)%list t
          = run_stdio_mode pf (pre ++ post)%list t).
Proof.
  intros pf o Hm; repeat split.
  - intros; apply process_notification, Hm.
  - intros; apply process_notification, Hm.
  - intros raw t Hl; exact (stdio_line_notification pf raw o t Hl Hm).
  - intros raw pre post t Hl.
    rewrite !run_stdio_mode_app; simpl; unfold bind.
    destruct (run_stdio_mode pf pre t) as [[e|[]] t1]; [reflexivity|].
    rewrite (stdio_line_notification pf raw o t1 Hl Hm); reflexivity.
Qed.

Lemma initialized_notification_is_silent_witness :
  process_mcp_request demo notification [] = (inr None, [])
  /\ stdio_line demo (json_text notification ++ str1 newline) [] = (inr tt, [])
  /\ run_stdio_mode demo
       [json_text call_nonexistent; json_text notification; "zz"] []
     = run_stdio_mode demo [json_text call_nonexistent; "zz"] [].
Proof.
  pose proof (initialized_notification_is_silent demo
                [("jsonrpc", JStr "2.0");
                 ("method", JStr "notifications/initialized")] eq_refl)
    as (_ & H2 & H3 & H4).
  split; [exact (H2 [])|split].
  - exact (H3 (json_text notification ++ str1 newline) [] eq_refl).
  - exact (H4 (json_text notification) [json_text call_nonexistent] ["zz"] []
             eq_refl).
Defined.

(** ** Forwarding and unwrapping *)

Lemma run_lift {A B} (a : A) (k : A -> M B) t :
  bind (lift (inr a)) k t = k a t.
Proof. reflexivity. Qed.

Lemma run_ret {A B} (a : A) (k : A -> M B) t : bind (ret a) k t = k a t.
Proof. reflexivity. Qed.

Lemma run_assoc {A B C} (m : M A) (k : A -> M B) (k' : B -> M C) t :
  bind (bind m k) k' t = bind m (fun a => bind (k a) k') t.
Proof. unfold bind; destruct (m t) as [[e|a] t']; reflexivity. Qed.

Ltac run :=
  repeat (first [rewrite run_assoc | rewrite run_ret | rewrite run_lift
                | rewrite run_get];
          cbv beta iota).

Lemma py_index_obj kv k v :
  dict_get k kv = Some v -> py_index (JObj kv) k = inr v.
Proof. unfold py_index; intros ->; reflexivity. Qed.

Lemma py_in_obj k kv : py_in k (JObj kv) = inr (dict_has k kv).
Proof. reflexivity. Qed.

Lemma dict_has_some k kv v : dict_get k kv = Some v -> dict_has k kv = true.
Proof. unfold dict_has; intros ->; reflexivity. Qed.

Lemma dict_has_none k kv : dict_get k kv = None -> dict_has k kv = false.
Proof. unfold dict_has; intros ->; reflexivity. Qed.



Lemma unwrap_first_item o r first rest t :
  dict_get "error" o = None ->
  dict_get "result" o = Some (JObj r) ->
  dict_get "content" r = Some (JList (JObj first :: rest)) ->
  unwrap_response (JObj o) t
  = (inr (field "text" (JStr EmptyString) first), t).
Proof.
  intros He Hr Hc; unfold unwrap_response.
  rewrite !py_in_obj, (dict_has_none _ _ He), (dict_has_some _ _ _ Hr).
  rewrite !(py_index_obj _ _ _ Hr); run.
  rewrite py_in_obj, (dict_has_some _ _ _ Hc); run.
  rewrite (py_index_obj _ _ _ Hc); run.
  rewrite py_get_obj; reflexivity.
Qed.

Section Forwarding.

Variable pf : Platform.


Lemma forward_unwrapped socket_path request response v t t' t'' :
  send_to_julia_server pf socket_path request t = (inr response, t') ->
  unwrap_response response t' = (inr v, t'') ->
  forward pf socket_path request t = (inr v, t'').
Proof.
  intros Hs Hu; unfold forward, try_except.
  rewrite (run_bind _ _ _ _ _ Hs), Hu; reflexivity.
Qed.

Lemma truthy_path pd : pd <> EmptyString -> truthy (JStr pd) = true.
Proof. destruct pd; [congruence|reflexivity]. Qed.

Lemma exec_reaches args socket_path t t2 :
  backend_ready pf args t socket_path t2 ->
  truthy (field "expression" (JStr EmptyString) args) = true ->
  handle_exec_repl pf (JObj args) t
  = forward pf socket_path
      (julia_request "exec_repl" (backend_arguments "exec_repl" args)) t2.
Proof.
  intros (pd & t1 & Hpd & Hne & Hfind & Hrun) Hex.
  unfold handle_exec_repl; do 2 run_get.
  rewrite (field_some _ _ _ _ Hpd), (truthy_path _ Hne), Hex.
  cbv [negb fspath]; rewrite run_lift.
  rewrite (run_bind _ _ _ _ _ Hfind), (run_bind _ _ _ _ _ Hrun).
  reflexivity.
Qed.

Lemma investigate_reaches args socket_path t t2 :
  backend_ready pf args t socket_path t2 ->
  handle_investigate_environment pf (JObj args) t
  = forward pf socket_path
      (julia_request "investigate_environment" (JObj [])) t2.
Proof.
  intros (pd & t1 & Hpd & Hne & Hfind & Hrun).
  unfold handle_investigate_environment; run_get.
  rewrite (field_some _ _ _ _ Hpd), (truthy_path _ Hne).
  cbv [negb fspath]; rewrite run_lift.
  rewrite (run_bind _ _ _ _ _ Hfind), (run_bind _ _ _ _ _ Hrun).
  reflexivity.
Qed.

Lemma usage_reaches args socket_path t t2 :
  backend_ready pf args t socket_path t2 ->
  handle_usage_instructions pf (JObj args) t
  = forward pf socket_path (julia_request "usage_instructions" (JObj [])) t2.
Proof.
  intros (pd & t1 & Hpd & Hne & Hfind & Hrun).
  unfold handle_usage_instructions; run_get.
  rewrite (field_some _ _ _ _ Hpd), (truthy_path _ Hne).
  cbv [negb fspath]; rewrite run_lift.
  rewrite (run_bind _ _ _ _ _ Hfind), (run_bind _ _ _ _ _ Hrun).
  reflexivity.
Qed.

(** Each handler of the registry, its checks passed, is the [try] statement
    on the request of its own operation. *)
Lemma handler_reaches tl args socket_path t t2 :
  In tl (TOOLS pf) ->
  backend_ready pf args t socket_path t2 ->
  arguments_ok (name tl) args = true ->
  handler tl (JObj args) t
  = forward pf socket_path
      (julia_request (name tl) (backend_arguments (name tl) args)) t2.
Proof.
  intros [<-|[<-|[<-|[]]]] Hready Hok; simpl in *.
  - apply exec_reaches; assumption.
  - apply investigate_reaches; assumption.
  - apply usage_reaches; assumption.
Qed.

End Forwarding.

(** A case of C3 as it is stated that the code does not meet: [project_dir]
    and [expression] are both present, the backend of [/a] is found and
    runs, and it would answer with the text 2; the expression being the
    empty string, the handler returns its complaint instead. *)
Lemma exec_round_trip_counterexample :
  backend_ready demo
    [("project_dir", JStr "/a"); ("expression", JStr EmptyString)] []
    "/a/.mcp-repl.sock"
    [EvExists "/a/.mcp-repl.sock"; EvExists "/a/.mcp-repl.pid";
     EvRead "/a/.mcp-repl.pid"; EvKill 4242 0]
  /\ fst (send_to_julia_server demo "/a/.mcp-repl.sock"
            (julia_request "exec_repl"
               (JObj [("expression", JStr EmptyString)])) [])
     = inr (JObj [("result", JObj [("content", JList [text_item "2"])])])
  /\ handle_exec_repl demo
       (JObj [("project_dir", JStr "/a"); ("expression", JStr EmptyString)])
       []
     = (inr (JStr "Error: expression parameter is required"), [])
  /\ JStr "Error: expression parameter is required" <> JStr "2".
Proof.
  split; [|split; [|split]].
  - exists "/a", [EvExists "/a/.mcp-repl.sock"].
    repeat split; discriminate.
  - reflexivity.
  - reflexivity.
  - discriminate.
Qed.

(** C3, amended: when [project_dir] is a non-empty string and [expression]
    is a value Python counts as true, the backend is found and runs, and its
    response has no error and a result whose content is a list that begins
    with an item of text [text], the execute handler returns exactly
    [text]. *)
Theorem exec_round_trip :
  forall (pf : Platform) (args o r first : list (string * json))
         (rest : list json) (socket_path text : string) (t t2 t3 : trace),
    backend_ready pf args t socket_path t2 ->
    truthy (field "expression" (JStr EmptyString) args) = true ->
    send_to_julia_server pf socket_path
      (julia_request "exec_repl"
         (JObj [("expression", field "expression" (JStr EmptyString) args)]))
      t2
    = (inr (JObj o), t3) ->
    dict_get "error" o = None ->
    dict_get "result" o = Some (JObj r) ->
    dict_get "content" r = Some (JList (JObj first :: rest)) ->
    dict_get "text" first = Some (JStr text) ->
    handle_exec_repl pf (JObj args) t = (inr (JStr text), t3).
Proof.
  intros pf args o r first rest socket_path text t t2 t3
         Hready Hex Hsend He Hr Hc Ht.
  rewrite (exec_reaches pf args socket_path t t2 Hready Hex).
  apply (forward_unwrapped pf _ _ (JObj o) _ t2 t3 t3 Hsend).
  rewrite (unwrap_first_item o r first rest t3 He Hr Hc).
  rewrite (field_some _ _ _ _ Ht); reflexivity.
Qed.

Lemma exec_round_trip_witness :
  fst (handle_exec_repl demo
         (JObj [("project_dir", JStr "/a/b/c"); ("expression", JStr "1+1")])
         [])
  = inr (JStr "2").
Proof.
  rewrite (exec_round_trip demo
             [("project_dir", JStr "/a/b/c"); ("expression", JStr "1+1")]
             [("result", JObj [("content", JList [text_item "2"])])]
             [("content", JList [text_item "2"])]
             [("type", JStr "text"); ("text", JStr "2")] []
             "/a/.mcp-repl.sock" "2" []
             [EvExists "/a/b/c/.mcp-repl.sock"; EvExists "/a/b/.mcp-repl.sock";
              EvExists "/a/.mcp-repl.sock"; EvExists "/a/.mcp-repl.pid";
              EvRead "/a/.mcp-repl.pid"; EvKill 4242 0]
             (snd (handle_exec_repl demo
                     (JObj [("project_dir", JStr "/a/b/c");
                            ("expression", JStr "1+1")]) []))).
  - reflexivity.
  - exists "/a/b/c",
      [EvExists "/a/b/c/.mcp-repl.sock"; EvExists "/a/b/.mcp-repl.sock";
       EvExists "/a/.mcp-repl.sock"].
    repeat split; discriminate.
  - reflexivity.
  - reflexivity.
  - reflexivity.
  - reflexivity.
  - reflexivity.
  - reflexivity.
Defined.




(** * Further properties of the code *)

(** ** Dispatcher *)

Lemma py_get_not_dict v k d : is_dict v = false -> py_get v k d = inl (no_get v).
Proof. destruct v; simpl; intros H; try reflexivity; discriminate. Qed.

Lemma run_raise {A B} (e : exn) (k : A -> M B) t :
  bind (lift (inl e)) k t = (inl e, t).
Proof. reflexivity. Qed.

(** X1: a request dict whose method is none of the four known ones, or that
    has no method, is answered with the error envelope of code -32601 whose
    message is [Method not found: ] followed by the method as [str] prints it
    ([None] when absent); the id is echoed and no system call is made,
    whatever the registry. *)
Theorem unknown_method_is_not_found :
  forall (registry : list tool) (o : list (string * json)) (t : trace),
    known_method (field "method" JNull o) = false ->
    process_mcp_request_in registry (JObj o) t
    = (inr (Some (create_error_response (field "id" JNull o) (-32601)
                    ("Method not found: "
                     ++ py_str (field "method" JNull o)))), t).
Proof.
  intros registry o t H; unfold process_mcp_request_in; do 2 run_get.
  unfold known_method in H.
  repeat (apply orb_false_iff in H; destruct H as [H ?]).
  repeat match goal with E : eq_str _ _ = false |- _ => rewrite E; clear E end.
  reflexivity.
Qed.

Lemma unknown_method_is_not_found_witness :
  process_mcp_request demo (JObj [("id", JNum 9); ("method", JStr "ping")]) []
  = (inr (Some (create_error_response (JNum 9) (-32601)
                  "Method not found: ping")), [])
  /\ process_mcp_request demo (JObj [("id", JStr "a")]) []
     = (inr (Some (create_error_response (JStr "a") (-32601)
                     "Method not found: None")), []).
Proof.
  split.
  - exact (unknown_method_is_not_found (TOOLS demo)
             [("id", JNum 9); ("method", JStr "ping")] [] eq_refl).
  - exact (unknown_method_is_not_found (TOOLS demo) [("id", JStr "a")] []
             eq_refl).
Defined.

Ltac envelope :=
  let H := fresh in
  intros H; inversion H; subst; do 2 eexists; split; [reflexivity|auto].

(** X2: whatever the dispatcher returns for a request dict is an envelope of
    three fields in this order: [jsonrpc] with the text 2.0, [id] with the
    id of the request (null when it has none), and either [result] or
    [error]. *)
Theorem response_is_an_envelope :
  forall (registry : list tool) (o : list (string * json)) (response : json)
         (t t' : trace),
    process_mcp_request_in registry (JObj o) t = (inr (Some response), t') ->
    exists k v,
      response = JObj [("jsonrpc", JStr "2.0");
                       ("id", field "id" JNull o); (k, v)]
      /\ (k = "result" \/ k = "error").
Proof.
  intros registry o response t t'; unfold process_mcp_request_in.
  do 2 run_get.
  set (method := field "method" JNull o); unfold ret.
  destruct (eq_str method "initialize");
    [envelope|].
  destruct (eq_str method "notifications/initialized");
    [intros H; cbv beta iota in H; discriminate|].
  destruct (eq_str method "tools/list");
    [envelope|].
  destruct (eq_str method "tools/call");
    [|envelope].
  run_get.
  destruct (is_dict (field "params" (JObj []) o)) eqn:Hd.
  - destruct (field "params" (JObj []) o) as [| | | | |p];
      simpl in Hd; try discriminate.
    do 2 run_get.
    destruct (find_tool registry _) as [tl|];
      [|envelope].
    unfold call_tool, try_except, bind, ret.
    destruct (handler tl _ t) as [[e|v] t1]; simpl;
      envelope.
  - rewrite (py_get_not_dict _ _ _ Hd), run_raise; discriminate.
Qed.

Lemma response_is_an_envelope_witness :
  exists k v,
    create_error_response (JNum 7) (-32602) "Tool not found: nonexistent"
    = JObj [("jsonrpc", JStr "2.0"); ("id", JNum 7); (k, v)]
    /\ (k = "result" \/ k = "error").
Proof.
  exact (response_is_an_envelope (TOOLS demo)
           [("jsonrpc", JStr "2.0"); ("id", JNum 7);
            ("method", JStr "tools/call");
            ("params", JObj [("name", JStr "nonexistent")])]
           _ [] [] eq_refl).
Defined.

(** X3: an exception that leaves a tool's handler does not leave the
    dispatcher; it is answered with the error envelope of code -32603 whose
    message is [Tool execution error: ] followed by the text of the
    exception, under the id of the request, whatever the registry. *)
Theorem handler_exception_is_internal_error :
  forall (registry : list tool) (o p : list (string * json)) (tl : tool)
         (e : exn) (t t' : trace),
    dict_get "method" o = Some (JStr "tools/call") ->
    field "params" (JObj []) o = JObj p ->
    find_tool registry (field "name" (JStr EmptyString) p) = Some tl ->
    handler tl (field "arguments" (JObj []) p) t = (inl e, t') ->
    process_mcp_request_in registry (JObj o) t
    = (inr (Some (create_error_response (field "id" JNull o) (-32603)
                    ("Tool execution error: " ++ exn_text e))), t').
Proof.
  intros registry o p tl e t t' Hm Hp Hfind Hraise.
  rewrite (process_tools_call registry o p t Hm Hp), Hfind.
  unfold call_tool, try_except, bind; rewrite Hraise; reflexivity.
Qed.

Lemma handler_exception_is_internal_error_witness :
  process_mcp_request demo
    (tools_call (JNum 4) "investigate_environment"
       (JObj [("project_dir", JStr "/big")])) []
  = (inr (Some (create_error_response (JNum 4) (-32603)
                  "Tool execution error: signed integer is greater than maximum")),
     [EvExists "/big/.mcp-repl.sock"; EvExists "/big/.mcp-repl.pid";
      EvRead "/big/.mcp-repl.pid"]).
Proof.
  exact (handler_exception_is_internal_error (TOOLS demo)
           [("jsonrpc", JStr "2.0"); ("id", JNum 4);
            ("method", JStr "tools/call");
            ("params", JObj [("name", JStr "investigate_environment");
                             ("arguments",
                              JObj [("project_dir", JStr "/big")])])]
           [("name", JStr "investigate_environment");
            ("arguments", JObj [("project_dir", JStr "/big")])]
           _
           (Raised OverflowError "signed integer is greater than maximum")
           [] _ eq_refl eq_refl eq_refl eq_refl).
Defined.

(** The [params] of a [tools/call] that is not a dict stops the
    dispatcher. *)
Lemma params_not_dict_raises registry o t :
  dict_get "method" o = Some (JStr "tools/call") ->
  is_dict (field "params" (JObj []) o) = false ->
  process_mcp_request_in registry (JObj o) t
  = (inl (no_get (field "params" (JObj []) o)), t).
Proof.
  intros Hm Hd.
  unfold process_mcp_request_in; do 2 run_get.
  rewrite (field_some _ _ _ _ Hm); simpl (eq_str _ _); cbv iota.
  run_get; rewrite (py_get_not_dict _ _ _ Hd); reflexivity.
Qed.

(** X4: the dispatcher itself raises in two cases only, both an
    [AttributeError] from calling [get] on something that is not a dict and
    both before any system call: when the request is not a dict, and when
    the [params] of a [tools/call] request is present and is not a dict.  On
    every other request it returns. *)
Theorem dispatcher_raises_only_on_non_dict :
  forall (registry : list tool) (t : trace),
    (forall request,
       is_dict request = false ->
       process_mcp_request_in registry request t = (inl (no_get request), t))
    /\ (forall o,
          dict_get "method" o = Some (JStr "tools/call") ->
          is_dict (field "params" (JObj []) o) = false ->
          process_mcp_request_in registry (JObj o) t
          = (inl (no_get (field "params" (JObj []) o)), t))
    /\ (forall o,
          (eq_str (field "method" JNull o) "tools/call" = true ->
           is_dict (field "params" (JObj []) o) = true) ->
          exists response t',
            process_mcp_request_in registry (JObj o) t = (inr response, t')).
Proof.
  intros registry t; split; [|split].
  - intros request H; unfold process_mcp_request_in.
    rewrite (py_get_not_dict _ _ _ H); reflexivity.
  - intros o Hm Hd; apply params_not_dict_raises; assumption.
  - intros o Hp; unfold process_mcp_request_in; do 2 run_get.
    set (method := field "method" JNull o) in *; unfold ret.
    destruct (eq_str method "initialize"); [eauto|].
    destruct (eq_str method "notifications/initialized"); [eauto|].
    destruct (eq_str method "tools/list"); [eauto|].
    destruct (eq_str method "tools/call"); [|eauto].
    specialize (Hp eq_refl).
    destruct (field "params" (JObj []) o) as [| | | | |p] eqn:E;
      simpl in Hp; try discriminate.
    run_get; rewrite E; do 2 run_get.
    destruct (find_tool registry _) as [tl|]; [|eauto].
    unfold call_tool, try_except, bind, ret.
    destruct (handler tl _ t) as [[e|v] t1]; simpl; eauto.
Qed.

Lemma dispatcher_raises_only_on_non_dict_witness :
  process_mcp_request demo (JList []) []
  = (inl (Raised AttributeError "'list' object has no attribute 'get'"), [])
  /\ process_mcp_request demo
       (JObj [("id", JNum 2); ("method", JStr "tools/call");
              ("params", JNull)]) []
     = (inl (Raised AttributeError "'NoneType' object has no attribute 'get'"),
        [])
  /\ exists response t',
       process_mcp_request demo
         (tools_call (JNum 4) "investigate_environment"
            (JObj [("project_dir", JStr "/big")])) []
       = (inr response, t').
Proof.
  destruct (dispatcher_raises_only_on_non_dict (TOOLS demo) [])
    as (H1 & H2 & H3).
  split; [|split].
  - exact (H1 (JList []) eq_refl).
  - exact (H2 [("id", JNum 2); ("method", JStr "tools/call");
               ("params", JNull)] eq_refl eq_refl).
  - exact (H3 [("jsonrpc", JStr "2.0"); ("id", JNum 4);
               ("method", JStr "tools/call");
               ("params", JObj [("name", JStr "investigate_environment");
                                ("arguments",
                                 JObj [("project_dir", JStr "/big")])])]
             (fun _ => eq_refl)).
Defined.

(** X5: every tool of the registry is reached by its own name: a
    [tools/call] request that names a tool of [TOOLS] runs the handler of
    that very entry on the given arguments (the empty dict when there are
    none) and wraps what it does; it is never answered [Tool not found]. *)
Theorem registered_name_reaches_its_handler :
  forall (pf : Platform) (o p : list (string * json)) (tl : tool) (t : trace),
    dict_get "method" o = Some (JStr "tools/call") ->
    field "params" (JObj []) o = JObj p ->
    In tl (TOOLS pf) ->
    dict_get "name" p = Some (JStr (name tl)) ->
    find_tool (TOOLS pf) (JStr (name tl)) = Some tl
    /\ process_mcp_request pf (JObj o) t
       = call_tool tl (field "id" JNull o) (field "arguments" (JObj []) p) t.
Proof.
  intros pf o p tl t Hm Hp Hin Hn.
  assert (Hfind : find_tool (TOOLS pf) (JStr (name tl)) = Some tl).
  { destruct Hin as [<-|[<-|[<-|[]]]]; reflexivity. }
  split; [exact Hfind|].
  unfold process_mcp_request.
  rewrite (process_tools_call _ o p t Hm Hp), (field_some _ _ _ _ Hn), Hfind.
  reflexivity.
Qed.

Lemma registered_name_reaches_its_handler_witness :
  process_mcp_request demo
    (JObj [("method", JStr "tools/call");
           ("params", JObj [("name", JStr "usage_instructions")])]) []
  = (inr (Some (tool_result JNull
                  (JStr "Error: project_dir parameter is required"))), []).
Proof.
  exact (proj2 (registered_name_reaches_its_handler demo
                  [("method", JStr "tools/call");
                   ("params", JObj [("name", JStr "usage_instructions")])]
                  [("name", JStr "usage_instructions")] _ []
                  eq_refl eq_refl
                  (or_intror (or_intror (or_introl eq_refl))) eq_refl)).
Defined.

(** ** Handlers *)

Section HandlerErrors.

Variable pf : Platform.

(** Each handler of the registry, given a non-empty string [project_dir]
    (and a usable expression for the execute operation), is the walk, then
    the liveness check, then the forwarding. *)
Lemma handler_unfolded tl args pd t :
  In tl (TOOLS pf) ->
  dict_get "project_dir" args = Some (JStr pd) ->
  pd <> EmptyString ->
  arguments_ok (name tl) args = true ->
  handler tl (JObj args) t
  = bind (find_socket_path pf pd)
      (fun found =>
         match found with
         | None => ret (JStr (not_found_message (name tl) pd))
         | Some socket_path =>
             bind (check_server_running pf socket_path)
               (fun running =>
                  if negb running
                  then ret (JStr (not_running_message (name tl)))
                  else forward pf socket_path
                         (julia_request (name tl)
                            (backend_arguments (name tl) args)))
         end) t.
Proof.
  intros [<-|[<-|[<-|[]]]] Hpd Hne Hok; simpl in *.
  - unfold arguments_ok in Hok; simpl in Hok.
    unfold handle_exec_repl; do 2 run_get.
    rewrite (field_some _ _ _ _ Hpd), (truthy_path _ Hne), Hok.
    cbv [negb fspath]; rewrite run_lift; reflexivity.
  - unfold handle_investigate_environment; run_get.
    rewrite (field_some _ _ _ _ Hpd), (truthy_path _ Hne).
    cbv [negb fspath]; rewrite run_lift; reflexivity.
  - unfold handle_usage_instructions; run_get.
    rewrite (field_some _ _ _ _ Hpd), (truthy_path _ Hne).
    cbv [negb fspath]; rewrite run_lift; reflexivity.
Qed.

End HandlerErrors.

(** X6: when the walk from [project_dir] finds no marker, every handler of
    the registry returns the text [Error: MCP REPL server not found in ]
    followed by [project_dir] (the execute handler adds how to start the
    server), and the trace ends where the walk ended: no PID file is looked
    for, no process is probed, no socket is opened. *)
Theorem backend_not_found_is_reported :
  forall (pf : Platform) (tl : tool) (args : list (string * json))
         (pd : string) (t t1 : trace),
    In tl (TOOLS pf) ->
    dict_get "project_dir" args = Some (JStr pd) ->
    pd <> EmptyString ->
    arguments_ok (name tl) args = true ->
    find_socket_path pf pd t = (inr None, t1) ->
    handler tl (JObj args) t
    = (inr (JStr (not_found_message (name tl) pd)), t1).
Proof.
  intros pf tl args pd t t1 Hin Hpd Hne Hok Hfind.
  rewrite (handler_unfolded pf tl args pd t Hin Hpd Hne Hok).
  rewrite (run_bind _ _ _ _ _ Hfind); reflexivity.
Qed.

Lemma backend_not_found_is_reported_witness :
  handle_usage_instructions demo (JObj [("project_dir", JStr "/x/y")]) []
  = (inr (JStr "Error: MCP REPL server not found in /x/y"),
     [EvExists "/x/y/.mcp-repl.sock"; EvExists "/x/.mcp-repl.sock";
      EvExists "/.mcp-repl.sock"]).
Proof.
  apply (backend_not_found_is_reported demo _
           [("project_dir", JStr "/x/y")] "/x/y" [] _
           (or_intror (or_intror (or_introl eq_refl))) eq_refl).
  - discriminate.
  - reflexivity.
  - reflexivity.
Defined.

(** X7: when the marker is found and the liveness check says the backend
    does not run, every handler of the registry returns the text [Error: MCP
    REPL server not running] (the execute handler adds that the socket
    exists but the process is dead, and how to start the server), and the
    trace ends where the liveness check ended: no socket is opened. *)
Theorem dead_backend_is_reported :
  forall (pf : Platform) (tl : tool) (args : list (string * json))
         (pd socket_path : string) (t t1 t2 : trace),
    In tl (TOOLS pf) ->
    dict_get "project_dir" args = Some (JStr pd) ->
    pd <> EmptyString ->
    arguments_ok (name tl) args = true ->
    find_socket_path pf pd t = (inr (Some socket_path), t1) ->
    check_server_running pf socket_path t1 = (inr false, t2) ->
    handler tl (JObj args) t
    = (inr (JStr (not_running_message (name tl))), t2).
Proof.
  intros pf tl args pd socket_path t t1 t2 Hin Hpd Hne Hok Hfind Hrun.
  rewrite (handler_unfolded pf tl args pd t Hin Hpd Hne Hok).
  rewrite (run_bind _ _ _ _ _ Hfind), (run_bind _ _ _ _ _ Hrun); reflexivity.
Qed.

Lemma dead_backend_is_reported_witness :
  handle_investigate_environment demo_dead
    (JObj [("project_dir", JStr "/a")]) []
  = (inr (JStr "Error: MCP REPL server not running"),
     [EvExists "/a/.mcp-repl.sock"; EvExists "/a/.mcp-repl.pid";
      EvRead "/a/.mcp-repl.pid"; EvKill 4242 0]).
Proof.
  apply (dead_backend_is_reported _ _ [("project_dir", JStr "/a")] "/a"
           "/a/.mcp-repl.sock" [] [EvExists "/a/.mcp-repl.sock"] _
           (or_intror (or_introl eq_refl)) eq_refl).
  - discriminate.
  - reflexivity.
  - reflexivity.
  - reflexivity.
Defined.

Section ForwardingErrors.

Variable pf : Platform.

Lemma forward_failed socket_path request e t t' :
  send_to_julia_server pf socket_path request t = (inl e, t') ->
  forward pf socket_path request t
  = (inr (JStr ("Error communicating with Julia server: " ++ exn_text e)), t').
Proof.
  intros Hs; unfold forward, try_except.
  rewrite (run_bind_raise _ _ _ _ _ Hs); reflexivity.
Qed.

Lemma forward_faulted socket_path request response e t t' t'' :
  send_to_julia_server pf socket_path request t = (inr response, t') ->
  unwrap_response response t' = (inl e, t'') ->
  forward pf socket_path request t
  = (inr (JStr ("Error communicating with Julia server: " ++ exn_text e)),
     t'').
Proof.
  intros Hs Hu; unfold forward, try_except.
  rewrite (run_bind _ _ _ _ _ Hs), Hu; reflexivity.
Qed.

Lemma unwrap_error o err t :
  dict_get "error" o = Some err ->
  unwrap_response (JObj o) t
  = (match py_index err "message" with
     | inr message => inr (JStr ("Error from Julia server: " ++ py_str message))
     | inl e => inl e
     end, t).
Proof.
  intros He; unfold unwrap_response.
  rewrite py_in_obj, (dict_has_some _ _ _ He); run.
  rewrite (py_index_obj _ _ _ He); run.
  destruct (py_index err "message") as [e|message]; reflexivity.
Qed.

End ForwardingErrors.

(** X8: when the transport client raises, for whatever reason, every handler
    of the registry that had passed its checks returns the text [Error
    communicating with Julia server: ] followed by the text of the exception;
    the failure is a tool result, not an exception of the handler. *)
Theorem transport_failure_is_reported :
  forall (pf : Platform) (tl : tool) (args : list (string * json))
         (socket_path : string) (e : exn) (t t2 t3 : trace),
    In tl (TOOLS pf) ->
    backend_ready pf args t socket_path t2 ->
    arguments_ok (name tl) args = true ->
    send_to_julia_server pf socket_path
      (julia_request (name tl) (backend_arguments (name tl) args)) t2
    = (inl e, t3) ->
    handler tl (JObj args) t
    = (inr (JStr ("Error communicating with Julia server: " ++ exn_text e)),
       t3).
Proof.
  intros pf tl args socket_path e t t2 t3 Hin Hready Hok Hsend.
  rewrite (handler_reaches pf tl args socket_path t t2 Hin Hready Hok).
  apply forward_failed, Hsend.
Qed.

Lemma transport_failure_is_reported_witness :
  fst (handle_exec_repl demo
         (JObj [("project_dir", JStr "/down"); ("expression", JStr "1+1")]) [])
  = inr (JStr "Error communicating with Julia server: Socket error: [Errno 111] Connection refused. Is the Julia MCP server running?").
Proof.
  refine (f_equal fst
            (transport_failure_is_reported demo _
               [("project_dir", JStr "/down"); ("expression", JStr "1+1")]
               "/down/.mcp-repl.sock"
               (Raised Exception_
                  "Socket error: [Errno 111] Connection refused. Is the Julia MCP server running?")
               []
               [EvExists "/down/.mcp-repl.sock";
                EvExists "/down/.mcp-repl.pid";
                EvRead "/down/.mcp-repl.pid"; EvKill 4242 0]
               (snd (handle_exec_repl demo
                       (JObj [("project_dir", JStr "/down");
                              ("expression", JStr "1+1")]) []))
               (or_introl eq_refl) _ eq_refl eq_refl)).
  exists "/down", [EvExists "/down/.mcp-repl.sock"].
  repeat split; discriminate.
Defined.

(** X9: when the response of the backend is a dict with an [error] field,
    that field decides the answer, whatever else the response holds: if
    [error] is a dict with a [message], every handler of the registry returns
    [Error from Julia server: ] followed by the message as [str] prints it;
    if the message cannot be taken out of it (no such key, or [error] is not
    a dict), the handler returns [Error communicating with Julia server: ]
    followed by the text of the exception that indexing raised. *)
Theorem backend_error_is_reported :
  forall (pf : Platform) (tl : tool) (args o : list (string * json))
         (socket_path : string) (err : json) (t t2 t3 : trace),
    In tl (TOOLS pf) ->
    backend_ready pf args t socket_path t2 ->
    arguments_ok (name tl) args = true ->
    send_to_julia_server pf socket_path
      (julia_request (name tl) (backend_arguments (name tl) args)) t2
    = (inr (JObj o), t3) ->
    dict_get "error" o = Some err ->
    handler tl (JObj args) t
    = (inr (JStr (match py_index err "message" with
                  | inr message =>
                      "Error from Julia server: " ++ py_str message
                  | inl e =>
                      "Error communicating with Julia server: " ++ exn_text e
                  end)), t3).
Proof.
  intros pf tl args o socket_path err t t2 t3 Hin Hready Hok Hsend He.
  rewrite (handler_reaches pf tl args socket_path t t2 Hin Hready Hok).
  pose proof (unwrap_error o err t3 He) as Hu.
  destruct (py_index err "message") as [e|message].
  - exact (forward_faulted pf _ _ _ _ _ _ _ Hsend Hu).
  - exact (forward_unwrapped pf _ _ _ _ _ _ _ Hsend Hu).
Qed.

Lemma backend_error_is_reported_witness :
  fst (handle_exec_repl demo_failing
         (JObj [("project_dir", JStr "/a"); ("expression", JStr "x")]) [])
  = inr (JStr "Error from Julia server: UndefVarError: x not defined").
Proof.
  refine (f_equal fst
            (backend_error_is_reported demo_failing _
               [("project_dir", JStr "/a"); ("expression", JStr "x")]
               [("jsonrpc", JStr "2.0"); ("id", JNum 1);
                ("error",
                 JObj [("code", JNum (-32000));
                       ("message", JStr "UndefVarError: x not defined")])]
               "/a/.mcp-repl.sock"
               (JObj [("code", JNum (-32000));
                      ("message", JStr "UndefVarError: x not defined")])
               []
               [EvExists "/a/.mcp-repl.sock"; EvExists "/a/.mcp-repl.pid";
                EvRead "/a/.mcp-repl.pid"; EvKill 4242 0]
               (snd (handle_exec_repl demo_failing
                       (JObj [("project_dir", JStr "/a");
                              ("expression", JStr "x")]) []))
               (or_introl eq_refl) _ eq_refl eq_refl eq_refl)).
  exists "/a", [EvExists "/a/.mcp-repl.sock"].
  repeat split; discriminate.
Defined.

(** X10: a handler reads of its arguments only [project_dir], and
    [expression] in the execute operation: two argument dicts that agree on
    these two give, for every handler of the registry, the same result and
    the same system calls, whatever other keys they hold and in whatever
    order. *)
Theorem other_arguments_are_ignored :
  forall (pf : Platform) (tl : tool) (args args' : list (string * json))
         (t : trace),
    In tl (TOOLS pf) ->
    field "project_dir" (JStr EmptyString) args
    = field "project_dir" (JStr EmptyString) args' ->
    field "expression" (JStr EmptyString) args
    = field "expression" (JStr EmptyString) args' ->
    handler tl (JObj args) t = handler tl (JObj args') t.
Proof.
  intros pf tl args args' t [<-|[<-|[<-|[]]]] Hpd Hex; simpl.
  - unfold handle_exec_repl; do 4 run_get; rewrite Hpd, Hex; reflexivity.
  - unfold handle_investigate_environment; do 2 run_get; rewrite Hpd.
    reflexivity.
  - unfold handle_usage_instructions; do 2 run_get; rewrite Hpd.
    reflexivity.
Qed.

Lemma other_arguments_are_ignored_witness :
  handle_exec_repl demo
    (JObj [("timeout", JNum 5); ("expression", JStr "1+1");
           ("project_dir", JStr "/a")]) []
  = handle_exec_repl demo
      (JObj [("project_dir", JStr "/a"); ("expression", JStr "1+1")]) [].
Proof.
  exact (other_arguments_are_ignored demo _
           [("timeout", JNum 5); ("expression", JStr "1+1");
            ("project_dir", JStr "/a")]
           [("project_dir", JStr "/a"); ("expression", JStr "1+1")] []
           (or_introl eq_refl) eq_refl eq_refl).
Defined.

(** X11: a [project_dir] that Python counts as true and that is not a
    string (a number, a non-empty list) is not refused with a text: every
    handler of the registry raises the [TypeError] of [os.path.abspath],
    before any system call; and arguments that are not a dict at all make
    every handler raise the [AttributeError] of [get]. *)
Theorem ill_typed_arguments_raise :
  forall (pf : Platform) (tl : tool) (t : trace),
    In tl (TOOLS pf) ->
    (forall args v e,
       dict_get "project_dir" args = Some v ->
       truthy v = true ->
       fspath v = inl e ->
       arguments_ok (name tl) args = true ->
       handler tl (JObj args) t = (inl e, t))
    /\ (forall args,
          is_dict args = false ->
          handler tl args t = (inl (no_get args), t)).
Proof.
  intros pf tl t [<-|[<-|[<-|[]]]]; simpl; split.
  - intros args v e Hv Ht He Hok.
    unfold arguments_ok in Hok; simpl in Hok.
    unfold handle_exec_repl; do 2 run_get.
    rewrite (field_some _ _ _ _ Hv), Ht, Hok, He; reflexivity.
  - intros args H; unfold handle_exec_repl.
    rewrite (py_get_not_dict _ _ _ H); reflexivity.
  - intros args v e Hv Ht He _.
    unfold handle_investigate_environment; run_get.
    rewrite (field_some _ _ _ _ Hv), Ht, He; reflexivity.
  - intros args H; unfold handle_investigate_environment.
    rewrite (py_get_not_dict _ _ _ H); reflexivity.
  - intros args v e Hv Ht He _.
    unfold handle_usage_instructions; run_get.
    rewrite (field_some _ _ _ _ Hv), Ht, He; reflexivity.
  - intros args H; unfold handle_usage_instructions.
    rewrite (py_get_not_dict _ _ _ H); reflexivity.
Qed.

Lemma ill_typed_arguments_raise_witness :
  handle_exec_repl demo
    (JObj [("project_dir", JNum 5); ("expression", JStr "1+1")]) []
  = (inl (Raised TypeError
            "expected str, bytes or os.PathLike object, not int"), [])
  /\ handle_usage_instructions demo (JList [JStr "/a"]) []
     = (inl (Raised AttributeError "'list' object has no attribute 'get'"),
        []).
Proof.
  split.
  - exact (proj1 (ill_typed_arguments_raise demo _ [] (or_introl eq_refl))
             [("project_dir", JNum 5); ("expression", JStr "1+1")]
             (JNum 5) _ eq_refl eq_refl eq_refl eq_refl).
  - exact (proj2 (ill_typed_arguments_raise demo _ []
                    (or_intror (or_intror (or_introl eq_refl))))
             (JList [JStr "/a"]) eq_refl).
Defined.

(** ** Stdio front end *)









Section Quiet.

Variable pf : Platform.











End Quiet.




Section StdioLines.

Variable pf : Platform.


End StdioLines.




(** ** Transport client *)

(** X14: when the connection is accepted, the server sends a line and the
    line decodes, [send_to_julia_server] returns the decoded response after
    exactly these calls on one new socket: create, connect to the path, wrap
    in a file, send the request as one line ([json.dumps] of it and a
    newline), read one line, close the file, close the socket. *)
Theorem transport_round_trip :
  forall (pf : Platform) (socket_path : string) (request response : json)
         (t : trace),
    connect pf socket_path = None ->
    peer pf socket_path (request_line pf request) <> EmptyString ->
    json_loads pf (peer pf socket_path (request_line pf request))
    = inr response ->
    send_to_julia_server pf socket_path request t
    = (inr response,
       (t ++ [EvSocket (fresh_fd t); EvConnect (fresh_fd t) socket_path;
              EvMakefile (fresh_fd t);
              EvSend (fresh_fd t) (json_dumps pf request ++ str1 newline);
              EvRecv (fresh_fd t); EvCloseFile (fresh_fd t);
              EvCloseSock (fresh_fd t)])%list).
Proof.
  intros pf socket_path request response t H1 H2 H3.
  rewrite (send_answered pf socket_path request response t H1 H2 H3).
  reflexivity.
Qed.

Lemma transport_round_trip_witness :
  send_to_julia_server demo "/a/.mcp-repl.sock" (JObj []) []
  = (inr reply_two,
     [EvSocket 0; EvConnect 0 "/a/.mcp-repl.sock"; EvMakefile 0;
      EvSend 0 ("{}" ++ str1 newline); EvRecv 0; EvCloseFile 0;
      EvCloseSock 0]).
Proof.
  apply (transport_round_trip demo "/a/.mcp-repl.sock" (JObj []) reply_two []).
  - reflexivity.
  - discriminate.
  - reflexivity.
Defined.

(** X15: a connection that is refused and a server that closes before
    sending a line both leave [send_to_julia_server] as a plain [Exception]
    whose text is [Socket error: ], the text of the cause, and [. Is the
    Julia MCP server running?]; for the early close the cause is the
    [ConnectionError] the function raises itself, which its own [except]
    clause catches.  After a refusal nothing is sent. *)
Theorem transport_failures_are_socket_errors :
  forall (pf : Platform) (socket_path : string) (request : json) (t : trace),
    (forall text,
       connect pf socket_path = Some text ->
       send_to_julia_server pf socket_path request t
       = (inl (Raised Exception_
                 ("Socket error: " ++ text
                  ++ ". Is the Julia MCP server running?")),
          (t ++ [EvSocket (fresh_fd t);
                 EvConnect (fresh_fd t) socket_path])%list))
    /\ (connect pf socket_path = None ->
        peer pf socket_path (request_line pf request) = EmptyString ->
        send_to_julia_server pf socket_path request t
        = (inl (Raised Exception_
                  "Socket error: Server closed connection. Is the Julia MCP server running?"),
           (t ++ exchange pf (fresh_fd t) socket_path request)%list)).
Proof.
  intros pf socket_path request t; split.
  - intros text H; exact (send_refused pf socket_path request text t H).
  - intros H1 H2; exact (send_closed_early pf socket_path request t H1 H2).
Qed.

Lemma transport_failures_are_socket_errors_witness :
  send_to_julia_server demo "/down/.mcp-repl.sock" (JObj []) []
  = (inl (Raised Exception_
            "Socket error: [Errno 111] Connection refused. Is the Julia MCP server running?"),
     [EvSocket 0; EvConnect 0 "/down/.mcp-repl.sock"])
  /\ fst (send_to_julia_server demo "/eof/.mcp-repl.sock" (JObj []) [])
     = inl (Raised Exception_
              "Socket error: Server closed connection. Is the Julia MCP server running?").
Proof.
  split.
  - exact (proj1 (transport_failures_are_socket_errors demo
                    "/down/.mcp-repl.sock" (JObj []) []) _ eq_refl).
  - exact (f_equal fst
             (proj2 (transport_failures_are_socket_errors demo
                       "/eof/.mcp-repl.sock" (JObj []) []) eq_refl eq_refl)).
Defined.

(** X16: a response line that does not decode is not turned into a socket
    error: the exception of the decoder, unless it is an [OSError], leaves
    [send_to_julia_server] as it is, class and text. *)
Theorem decode_failure_is_not_wrapped :
  forall (pf : Platform) (socket_path : string) (request : json) (e : exn)
         (t : trace),
    connect pf socket_path = None ->
    peer pf socket_path (request_line pf request) <> EmptyString ->
    json_loads pf (peer pf socket_path (request_line pf request)) = inl e ->
    is_OSError (exn_cls e) = false ->
    send_to_julia_server pf socket_path request t
    = (inl e, (t ++ exchange pf (fresh_fd t) socket_path request)%list).
Proof.
  intros pf socket_path request e t H1 H2 H3 H4.
  exact (send_unparseable pf socket_path request e t H1 H2 H3 H4).
Qed.

Lemma decode_failure_is_not_wrapped_witness :
  fst (send_to_julia_server demo "/junk/.mcp-repl.sock" (JObj []) [])
  = inl (Raised JSONDecodeError "Expecting value: line 1 column 1 (char 0)").
Proof.
  refine (f_equal fst
            (decode_failure_is_not_wrapped demo "/junk/.mcp-repl.sock"
               (JObj []) _ [] eq_refl _ eq_refl eq_refl)).
  discriminate.
Defined.

(** ** Liveness check *)

Section LivenessErrors.

Variable pf : Platform.

Lemma check_server_running_unreadable socket_path e t :
  path_exists pf (pid_path_of socket_path) = true ->
  read_text pf (pid_path_of socket_path) = inl e ->
  check_server_running pf socket_path t
  = (if liveness_catches (exn_cls e) then inr false else inl e,
     (t ++ [EvExists (pid_path_of socket_path);
            EvRead (pid_path_of socket_path)])%list).
Proof.
  intros H1 H2; unfold check_server_running; fold (pid_path_of socket_path).
  unfold bind, emit, try_except, lift; rewrite H1; simpl.
  rewrite H2; simpl; fold (liveness_catches (exn_cls e)).
  rewrite <- app_assoc.
  destruct (liveness_catches (exn_cls e)); reflexivity.
Qed.

End LivenessErrors.

(** X17: when the PID file holds a number that fits [pid_t], the liveness
    check returns, and its verdict is the outcome of the zero-signal probe of
    that process: [True] when the probe succeeds, [False] when there is no
    such process and also when the probe is not permitted.  The only system
    calls are the existence test, the read and the probe. *)
Theorem liveness_follows_the_probe :
  forall (pf : Platform) (socket_path text : string) (pid : Z) (t : trace),
    path_exists pf (pid_path_of socket_path) = true ->
    read_text pf (pid_path_of socket_path) = inr text ->
    py_int (strip text) = Some pid ->
    - 2 ^ 31 <= pid < 2 ^ 31 ->
    check_server_running pf socket_path t
    = (inr (match probe pf pid with
            | Alive => true
            | NoSuchProcess | NotPermitted => false
            end),
       (t ++ [EvExists (pid_path_of socket_path);
              EvRead (pid_path_of socket_path); EvKill pid 0])%list).
Proof.
  intros pf socket_path text pid t H1 H2 H3 H4.
  rewrite (check_server_running_probed pf socket_path text pid t H1 H2 H3 H4).
  destruct (probe pf pid); reflexivity.
Qed.

Lemma liveness_follows_the_probe_witness :
  check_server_running demo "/a/.mcp-repl.sock" []
  = (inr true,
     [EvExists "/a/.mcp-repl.pid"; EvRead "/a/.mcp-repl.pid"; EvKill 4242 0])
  /\ check_server_running demo_dead "/a/.mcp-repl.sock" []
     = (inr false,
        [EvExists "/a/.mcp-repl.pid"; EvRead "/a/.mcp-repl.pid";
         EvKill 4242 0]).
Proof.
  split.
  - apply (liveness_follows_the_probe demo "/a/.mcp-repl.sock"
             ("4242" ++ str1 newline) 4242 []); try reflexivity; lia.
  - apply (liveness_follows_the_probe demo_dead "/a/.mcp-repl.sock"
             ("4242" ++ str1 newline) 4242 []); try reflexivity; lia.
Defined.


(** X19: when the PID file exists and cannot be read, the verdict depends on
    the class of the exception: [FileNotFoundError] (the file vanished after
    the existence test), [PermissionError] and [ValueError] (the bytes are
    not text) give [False]; any other exception, such as
    [IsADirectoryError], leaves [check_server_running]. *)
Theorem liveness_read_errors :
  forall (pf : Platform) (socket_path : string) (e : exn) (t : trace),
    path_exists pf (pid_path_of socket_path) = true ->
    read_text pf (pid_path_of socket_path) = inl e ->
    check_server_running pf socket_path t
    = (if is_FileNotFoundError (exn_cls e) || is_PermissionError (exn_cls e)
          || is_ValueError (exn_cls e) || is_ProcessLookupError (exn_cls e)
       then inr false else inl e,
       (t ++ [EvExists (pid_path_of socket_path);
              EvRead (pid_path_of socket_path)])%list).
Proof.
  intros pf socket_path e t H1 H2.
  rewrite (check_server_running_unreadable pf socket_path e t H1 H2).
  unfold liveness_catches; destruct (exn_cls e); reflexivity.
Qed.


Lemma liveness_read_errors_witness :
  check_server_running
    (demo_reading
       (inl (Raised FileNotFoundError "[Errno 2] No such file or directory")))
    "/a/.mcp-repl.sock" []
  = (inr false, [EvExists "/a/.mcp-repl.pid"; EvRead "/a/.mcp-repl.pid"])
  /\ check_server_running
       (demo_reading
          (inl (Raised IsADirectoryError "[Errno 21] Is a directory")))
       "/a/.mcp-repl.sock" []
     = (inl (Raised IsADirectoryError "[Errno 21] Is a directory"),
        [EvExists "/a/.mcp-repl.pid"; EvRead "/a/.mcp-repl.pid"]).
Proof.
  split.
  - exact (liveness_read_errors
             (demo_reading
                (inl (Raised FileNotFoundError
                        "[Errno 2] No such file or directory")))
             "/a/.mcp-repl.sock" _ [] eq_refl eq_refl).
  - exact (liveness_read_errors
             (demo_reading
                (inl (Raised IsADirectoryError "[Errno 21] Is a directory")))
             "/a/.mcp-repl.sock" _ [] eq_refl eq_refl).
Defined.

(** ** The PID file lies beside the marker *)

Lemma list_ascii_of_string_app a b :
  list_ascii_of_string (a ++ b)
  = (list_ascii_of_string a ++ list_ascii_of_string b)%list.
Proof. induction a as [|c a IH]; simpl; [reflexivity|rewrite IH; reflexivity]. Qed.

Lemma forallb_rev {A} (f : A -> bool) l : forallb f (rev l) = forallb f l.
Proof.
  induction l as [|x l IH]; simpl; [reflexivity|].
  rewrite forallb_app, IH; simpl; rewrite andb_true_r; apply andb_comm.
Qed.

(** [dirname] of a name put under a directory: first the case of a
    directory that consists of separators, then the case of one that does
    not end with a separator. *)
Lemma dirname_rev_under_root name_rev dir_rev :
  forallb (fun c => negb (is_slash c)) name_rev = true ->
  forallb is_slash dir_rev = true ->
  dirname_rev (name_rev ++ dir_rev)%list = dir_rev.
Proof.
  intros Hname Hdir; unfold dirname_rev.
  assert (E : drop_while (fun c => negb (is_slash c)) (name_rev ++ dir_rev)%list
              = dir_rev).
  { induction name_rev as [|c r IH]; simpl in *.
    - destruct dir_rev as [|c r]; [reflexivity|].
      simpl in *; apply andb_true_iff in Hdir; destruct Hdir as [-> _].
      reflexivity.
    - apply andb_true_iff in Hname; destruct Hname as [-> Hr]; apply IH, Hr. }
  rewrite E, Hdir; reflexivity.
Qed.

Lemma dirname_rev_under_dir name_rev c dir_rev :
  forallb (fun c => negb (is_slash c)) name_rev = true ->
  is_slash c = false ->
  dirname_rev (name_rev ++ slash :: c :: dir_rev)%list = c :: dir_rev.
Proof.
  intros Hname Hc; unfold dirname_rev.
  assert (E : drop_while (fun c => negb (is_slash c))
                (name_rev ++ slash :: c :: dir_rev)%list
              = slash :: c :: dir_rev).
  { induction name_rev as [|x r IH]; simpl in *; [reflexivity|].
    apply andb_true_iff in Hname; destruct Hname as [-> Hr]; apply IH, Hr. }
  rewrite E; simpl; rewrite Hc; reflexivity.
Qed.

Lemma dirname_marker d : tidy d = true -> dirname (marker_in d) = d.
Proof.
  intros Ht.
  assert (H : dirname_rev (rev (list_ascii_of_string (marker_in d)))
              = rev (list_ascii_of_string d)).
  { unfold marker_in, path_join.
    change (starts_with_slash SOCKET_NAME) with false; cbv iota.
    unfold tidy, ends_with_slash in *.
    rewrite <- (forallb_rev is_slash) in Ht.
    destruct d as [|c0 d0]; [reflexivity|].
    set (d := String c0 d0) in *.
    change (str_empty d) with false; cbv [orb].
    destruct (rev (list_ascii_of_string d)) as [|c r] eqn:E.
    { apply (f_equal (@List.length _)) in E.
      rewrite length_rev, length_list_ascii_of_string in E; discriminate. }
    destruct (is_slash c) eqn:Hc; simpl in Ht.
    - rewrite list_ascii_of_string_app, rev_app_distr, E.
      apply dirname_rev_under_root; [reflexivity|].
      simpl; rewrite Hc in *; exact Ht.
    - rewrite !list_ascii_of_string_app, !rev_app_distr, E.
      change (rev (list_ascii_of_string (str1 slash))) with [slash].
      rewrite <- app_assoc.
      apply (dirname_rev_under_dir _ c r); [reflexivity|exact Hc]. }
  unfold dirname; rewrite H, rev_involutive.
  apply string_of_list_ascii_of_string.
Qed.

Lemma tidy_dirname p : tidy (dirname p) = true.
Proof.
  unfold tidy, ends_with_slash, dirname.
  rewrite list_ascii_of_string_of_list_ascii, rev_involutive, forallb_rev.
  unfold dirname_rev.
  set (head := drop_while (fun c => negb (is_slash c)) _).
  destruct (forallb is_slash head) eqn:Hall.
  - rewrite Hall; apply orb_true_r.
  - clear Hall; induction head as [|c r IH]; [reflexivity|].
    simpl; destruct (is_slash c) eqn:Hc; [exact IH|].
    rewrite Hc; reflexivity.
Qed.

Lemma tidy_ancestor k : forall d, tidy d = true -> tidy (ancestor k d) = true.
Proof.
  induction k as [|k IH]; intros d Hd; simpl; [exact Hd|].
  apply IH, tidy_dirname.
Qed.

(** X20: the PID file that the liveness check reads for a socket found by
    the walk lies in the directory in which the marker was found: when the
    absolute form of [start_dir] has no trailing separator (as
    [os.path.abspath] returns it), the socket path found is the marker name
    joined to an ancestor [d] of it, and the PID path derived from that
    socket path is the PID name joined to the same [d]. *)
Theorem pid_file_lies_beside_the_marker :
  forall (pf : Platform) (start_dir socket_path : string) (t t1 : trace),
    tidy (abspath pf start_dir) = true ->
    find_socket_path pf start_dir t = (inr (Some socket_path), t1) ->
    exists k,
      socket_path
      = path_join (ancestor k (abspath pf start_dir)) SOCKET_NAME
      /\ path_join (dirname socket_path) PID_NAME
         = path_join (ancestor k (abspath pf start_dir)) PID_NAME.
Proof.
  intros pf start_dir socket_path t t1 Htidy Hfind.
  set (current := abspath pf start_dir) in *.
  destruct (find_socket_loop_enough_fuel pf (S (String.length current))
              current t) as (w & n & Hloop & Hw & _ & Hspec); [lia|].
  unfold find_socket_path in Hfind; fold current in Hfind.
  rewrite (run_bind _ _ _ _ _ Hloop) in Hfind.
  destruct w as [sp| |]; try discriminate.
  injection Hfind as -> _.
  destruct Hspec as (k & -> & _).
  exists k; split; [reflexivity|].
  rewrite (dirname_marker _ (tidy_ancestor k current Htidy)); reflexivity.
Qed.

Lemma pid_file_lies_beside_the_marker_witness :
  exists k,
    "/a/.mcp-repl.sock" = path_join (ancestor k "/a/b/c") SOCKET_NAME
    /\ path_join (dirname "/a/.mcp-repl.sock") PID_NAME
       = path_join (ancestor k "/a/b/c") PID_NAME.
Proof.
  exact (pid_file_lies_beside_the_marker demo "/a/b/c" "/a/.mcp-repl.sock"
           [] _ eq_refl eq_refl).
Defined.

(** ** HTTP front end *)

Section Http.

Variable pf : Platform.

Lemma do_POST_length req n t :
  read_content_length req t = (inr n, t) ->
  n <> 0 ->
  do_POST pf req t
  = try_except
      (body <- lift (http_read req n) ;;
       request <- lift (json_loads pf body) ;;
       response <- process_mcp_request pf request ;;
       match response with
       | Some r => ret (Some (send_json_response pf r 200))
       | None => ret None
       end)
      (fun c => is_JSONDecodeError c || is_Exception c)
      (fun e =>
         if is_JSONDecodeError (exn_cls e) then
           ret (Some (send_json_response pf
                        (front_end_error (-32700) "Parse error: " e) 400))
         else
           ret (Some (send_json_response pf
                        (front_end_error (-32603) "Internal error: " e) 500)))
      t.
Proof.
  intros Hlen Hn; unfold do_POST, try_except.
  rewrite (run_bind _ _ _ _ _ Hlen).
  destruct (Z.eqb_spec n 0) as [|_]; [contradiction|reflexivity].
Qed.

Lemma read_content_length_some req s n t :
  http_content_length req = Some s ->
  py_int s = Some n ->
  read_content_length req t = (inr n, t).
Proof. unfold read_content_length; intros -> ->; reflexivity. Qed.

End Http.

(** X21: [do_POST] never raises, and whatever it writes is a JSON response:
    the status is 200, 400 or 500, and the headers are [Content-Type:
    application/json], a [Content-Length] that is the length of the body
    written, and [Access-Control-Allow-Origin: *], in this order. *)
Theorem post_writes_json_responses :
  forall (pf : Platform) (req : http_request) (t : trace),
  exists (written : option http_response) (t' : trace),
    do_POST pf req t = (inr written, t')
    /\ match written with
       | None => True
       | Some r =>
           (status r = 200 \/ status r = 400 \/ status r = 500)
           /\ headers r = json_headers (body r)
       end.
Proof.
  intros pf req t; unfold do_POST, try_except.
  destruct (bind _ _ t) as [[e|written] t1] eqn:E.
  - rewrite orb_true_r.
    destruct (is_JSONDecodeError (exn_cls e)); do 2 eexists;
      (split; [reflexivity|]); simpl; auto.
  - exists written, t1; split; [reflexivity|].
    revert E; unfold bind at 1.
    destruct (read_content_length req t) as [[e|n] t0]; [discriminate|].
    destruct (n =? 0).
    + intros H; injection H as <- _; simpl; auto.
    + unfold bind, lift, ret.
      destruct (http_read req n) as [e|text]; [discriminate|].
      destruct (json_loads pf text) as [e|request]; [discriminate|].
      destruct (process_mcp_request pf request t0) as [[e|[r|]] t2];
        [discriminate| |]; intros H; injection H as <- _; simpl; auto.
Qed.





(** X24: a POST that carries the initialized notification is given no HTTP
    response at all: [do_POST] writes nothing, not even a status line, and
    makes no system call. *)
Theorem post_of_notification_writes_nothing :
  forall (pf : Platform) (req : http_request) (s text : string) (n : Z)
         (o : list (string * json)) (t : trace),
    http_content_length req = Some s ->
    py_int s = Some n ->
    n <> 0 ->
    http_read req n = inr text ->
    json_loads pf text = inr (JObj o) ->
    dict_get "method" o = Some (JStr "notifications/initialized") ->
    do_POST pf req t = (inr None, t).
Proof.
  intros pf req s text n o t Hs Hint Hn Hread Hl Hm.
  rewrite (do_POST_length pf req n t
             (read_content_length_some req s n t Hs Hint) Hn).
  unfold try_except, bind, lift; rewrite Hread; simpl; rewrite Hl; simpl.
  unfold process_mcp_request; rewrite (process_notification _ o t Hm).
  reflexivity.
Qed.

Lemma post_of_notification_writes_nothing_witness :
  do_POST demo (post_of "59" (json_text notification)) [] = (inr None, []).
Proof.
  apply (post_of_notification_writes_nothing demo
           (post_of "59" (json_text notification)) "59"
           (json_text notification) 59
           [("jsonrpc", JStr "2.0");
            ("method", JStr "notifications/initialized")] []);
    try reflexivity.
  discriminate.
Defined.

(** ** Listing and calling *)

Lemma find_tool_by_name registry tl :
  In tl registry ->
  exists tl', find_tool registry (JStr (name tl)) = Some tl'
              /\ name tl' = name tl.
Proof.
  unfold find_tool; induction registry as [|x r IH]; intros Hin; [destruct Hin|].
  simpl; destruct (String.eqb_spec (name tl) (name x)) as [E|Hne].
  - exists x; split; [reflexivity|symmetry; exact E].
  - destruct Hin as [->|Hin]; [congruence|apply IH, Hin].
Qed.

(** X25: [tools/list] is answered, without a system call, with the entries
    of the registry in order, each shown as its name, description and input
    schema; and every name so advertised can be called: looking it up finds
    an entry of that name, so a [tools/call] with it is never answered [Tool
    not found]. *)
Theorem listed_tools_can_be_called :
  forall (registry : list tool) (o : list (string * json)) (t : trace),
    dict_get "method" o = Some (JStr "tools/list") ->
    process_mcp_request_in registry (JObj o) t
    = (inr (Some (create_success_response (field "id" JNull o)
                    (JObj [("tools", JList (map listing registry))]))), t)
    /\ forall tl,
         In (listing tl) (map listing registry) ->
         exists tl', find_tool registry (JStr (name tl)) = Some tl'
                     /\ name tl' = name tl.
Proof.
  intros registry o t Hm; split.
  - unfold process_mcp_request_in; do 2 run_get.
    rewrite (field_some _ _ _ _ Hm); reflexivity.
  - intros tl Hin; apply in_map_iff in Hin.
    destruct Hin as (x & Hx & Hin).
    assert (E : name x = name tl) by (unfold listing in Hx; congruence).
    rewrite <- E; apply find_tool_by_name, Hin.
Qed.

Lemma listed_tools_can_be_called_witness :
  process_mcp_request demo
    (JObj [("id", JNum 2); ("method", JStr "tools/list")]) []
  = (inr (Some (create_success_response (JNum 2)
                  (JObj [("tools", JList (map listing (TOOLS demo)))]))), []).
Proof.
  exact (proj1 (listed_tools_can_be_called (TOOLS demo)
                  [("id", JNum 2); ("method", JStr "tools/list")] []
                  eq_refl)).
Defined.

(** X26: [do_GET] answers 200 with the body [{status: ok}] when the path is
    exactly [/health], and 400 with the envelope of code -32600 for every
    other path, a query string or a trailing separator included; both
    answers carry the three JSON headers. *)
Theorem get_answers_health_only :
  forall (pf : Platform) (req : http_request),
    (http_path req = "/health" ->
     do_GET pf req
     = send_json_response pf (JObj [("status", JStr "ok")]) 200)
    /\ (http_path req <> "/health" ->
        do_GET pf req
        = send_json_response pf
            (create_error_response JNull (-32600)
               "Use POST for JSON-RPC requests") 400)
    /\ headers (do_GET pf req) = json_headers (body (do_GET pf req)).
Proof.
  intros pf req; unfold do_GET.
  destruct (String.eqb_spec (http_path req) "/health") as [E|E];
    repeat split; try reflexivity; intros H; congruence.
Qed.

Lemma get_answers_health_only_witness :
  status (do_GET demo {| http_path := "/health";
                         http_content_length := None;
                         http_read := fun _ => inr EmptyString |}) = 200
  /\ status (do_GET demo {| http_path := "/health?x=1";
                            http_content_length := None;
                            http_read := fun _ => inr EmptyString |}) = 400.
Proof.
  split.
  - exact (f_equal status
             (proj1 (get_answers_health_only demo
                       {| http_path := "/health";
                          http_content_length := None;
                          http_read := fun _ => inr EmptyString |})
                eq_refl)).
  - refine (f_equal status
              (proj1 (proj2 (get_answers_health_only demo
                               {| http_path := "/health?x=1";
                                  http_content_length := None;
                                  http_read := fun _ => inr EmptyString |}))
                 _)).
    discriminate.
Defined.
